(** * Verification of the restaurant back end models

    Shallow embedding of the Mongoose models of the repository:
    - [Cart]     : src/models/Cart.js (cartSchema and its methods);
    - [Order]    : src/unnamed/part_001 (orderSchema, calculateTotal and the
                   order-number pre-save hook);
    - [Loyalty]  : src/models/Product.js (loyaltySchema and its methods);
    - [Delivery] : src/models/Contact.js (deliverySchema) and the driver
                   completion route of src/unnamed/part_010.

    JavaScript numbers are modelled as rationals [Q]: every arithmetic
    expression is written in the same shape and evaluation order as in the
    source.  A value that may be [undefined] or [null] in the source and is
    read through [x || 0] is an [option Q].  [this.save()] runs the schema
    validators ([required], [min], [max], [enum]) and then the pre-save
    hooks; a validator that fails makes the returned promise reject and the
    stored document keep its previous state. *)

From Stdlib Require Import QArith Qround Qminmax Lqa ZArith NArith List String Ascii Bool Arith Lia.
Import ListNotations.
Open Scope Q_scope.

(** [x || 0] on a number that may be missing. *)
Definition or_zero (x : option Q) : Q :=
  match x with Some v => v | None => 0 end.

(** The result of a method that returns [this.save()] or throws. *)
Inductive error :=
| NotFound          (** [new Error('Produto não encontrado no carrinho')] *)
| InsufficientPoints(** [new Error('Pontos insuficientes')] *)
| ValidationError.  (** a schema validator rejected the document on save *)

Inductive result (A : Type) :=
| Ok : A -> result A
| Err : error -> result A.
Arguments Ok {A} _.
Arguments Err {A} _.

(** Sum of a list of numbers, as a left fold starting at 0 ([reduce]). *)
Definition qsum (l : list Q) : Q := fold_left Qplus l 0.

Module Cart.

Record custom := mkCustom {
  cust_name : string;
  cust_value : string;
  additionalCost : option Q
}.

Record item := mkItem {
  product : nat;                 (** ObjectId of the product *)
  quantity : Q;
  unitPrice : Q;
  totalPrice : Q;
  specialInstructions : string;
  customization : list custom;
  addedAt : nat
}.

Record cart_totals := mkTotals {
  subtotal : Q;
  t_deliveryFee : Q;
  tax : Q;
  discount : Q;
  loyaltyDiscount : Q;
  total : Q
}.

Record cart := mkCart {
  items : list item;
  deliveryFee : option Q;        (** [delivery.deliveryFee] *)
  loyaltyPointsUsed : Q;         (** [payment.loyaltyPointsUsed] *)
  totals : cart_totals
}.

Definition set_items (c : cart) (l : list item) : cart :=
  mkCart l (deliveryFee c) (loyaltyPointsUsed c) (totals c).

Definition set_totals (c : cart) (t : cart_totals) : cart :=
  mkCart (items c) (deliveryFee c) (loyaltyPointsUsed c) t.

(** [item.customization.reduce((cost, custom) => cost + (custom.additionalCost || 0), 0)] *)
Definition customizationCost (cs : list custom) : Q :=
  fold_left (fun cost custom => cost + or_zero (additionalCost custom)) cs 0.

(** [cartSchema.methods.calculateTotals] *)
Definition calculateTotals (c : cart) : cart :=
  let subtotal :=
    fold_left (fun sum it =>
                 let itemTotal := quantity it * unitPrice it in
                 let cc := customizationCost (customization it) in
                 sum + itemTotal + cc) (items c) 0 in
  let fee := or_zero (deliveryFee c) in
  let tax := subtotal * (23 # 100) in
  let loyaltyDiscount := loyaltyPointsUsed c * (1 # 100) in
  let disc := discount (totals c) in
  let total := Qmax 0 (subtotal + fee + tax - disc - loyaltyDiscount) in
  set_totals c (mkTotals subtotal fee tax disc loyaltyDiscount total).

(** The [min] validators of the item sub-schema. *)
Definition item_valid (it : item) : bool :=
  Qle_bool 1 (quantity it) && Qle_bool 0 (unitPrice it)
  && Qle_bool 0 (totalPrice it).

(** [this.save()]: the validators run, then the pre-save hook
    recomputes the totals. *)
Definition save (c : cart) : result cart :=
  if forallb item_valid (items c) then Ok (calculateTotals c) else Err ValidationError.

Definition same_product (pid : nat) (it : item) : bool :=
  Nat.eqb (product it) pid.

(** Replace the first element satisfying [p] ([findIndex] / [find]
    followed by an in-place update). *)
Fixpoint update_first (p : item -> bool) (f : item -> item) (l : list item)
  : list item :=
  match l with
  | [] => []
  | it :: r => if p it then f it :: r else it :: update_first p f r
  end.

(** [cartSchema.methods.addItem]; [now] is [new Date()]. *)
Definition addItem (c : cart) (pid : nat) (q u : Q) (si : string)
           (cust : list custom) (now : nat) : result cart :=
  let c1 :=
    match find (same_product pid) (items c) with
    | Some _ =>
        set_items c (update_first (same_product pid) (fun it =>
            let q' := quantity it + q in
            mkItem (product it) q' (unitPrice it) (q' * u) si cust now)
          (items c))
    | None =>
        let tp := q * u in
        let cc := customizationCost cust in
        set_items c (items c ++ [mkItem pid q u (tp + cc) si cust now])
    end in
  save (calculateTotals c1).

(** [cartSchema.methods.removeItem] *)
Definition removeItem (c : cart) (pid : nat) : result cart :=
  let c1 := set_items c (filter (fun it => negb (same_product pid it)) (items c)) in
  save (calculateTotals c1).

(** [cartSchema.methods.updateItemQuantity]; [find] returns the first
    matching line, which is the one that is updated in place. *)
Definition updateItemQuantity (c : cart) (pid : nat) (n : Q) : result cart :=
  if Qle_bool n 0 then removeItem c pid
  else
    match find (same_product pid) (items c) with
    | Some _ =>
        let upd it :=
          mkItem (product it) n (unitPrice it) (n * unitPrice it)
                 (specialInstructions it) (customization it) (addedAt it) in
        save (calculateTotals
                (set_items c (update_first (same_product pid) upd (items c))))
    | None => Err NotFound
    end.

(** [cartSchema.methods.clearCart] *)
Definition clearCart (c : cart) : result cart :=
  save (calculateTotals (set_items c [])).

(** [cartSchema.methods.applyDiscount] *)
Definition applyDiscount (c : cart) (d : Q) : result cart :=
  let t := totals c in
  let t' := mkTotals (subtotal t) (t_deliveryFee t) (tax t)
                     (Qmin d (subtotal t)) (loyaltyDiscount t) (total t) in
  save (calculateTotals (set_totals c t')).

(** The mutating methods of a cart. *)
Inductive op :=
| OpAdd (pid : nat) (q u : Q) (si : string) (cust : list custom) (now : nat)
| OpRemove (pid : nat)
| OpUpdate (pid : nat) (n : Q)
| OpClear
| OpDiscount (d : Q).

Definition run (c : cart) (o : op) : result cart :=
  match o with
  | OpAdd pid q u si cust now => addItem c pid q u si cust now
  | OpRemove pid => removeItem c pid
  | OpUpdate pid n => updateItemQuantity c pid n
  | OpClear => clearCart c
  | OpDiscount d => applyDiscount c d
  end.

(** The totals formula of the specification, over the stored line items. *)
Definition spec_subtotal (l : list item) : Q :=
  qsum (map (fun it => quantity it * unitPrice it) l)
  + qsum (map (fun it => qsum (map (fun cu => or_zero (additionalCost cu))
                                   (customization it))) l).

Definition totals_ok (c : cart) : Prop :=
  let t := totals c in
  subtotal t == spec_subtotal (items c)
  /\ t_deliveryFee t == or_zero (deliveryFee c)
  /\ tax t == spec_subtotal (items c) * (23 # 100)
  /\ loyaltyDiscount t == loyaltyPointsUsed c * (1 # 100)
  /\ total t == Qmax 0 (subtotal t + t_deliveryFee t + tax t
                        - discount t - loyaltyDiscount t).

(** A line item with its stored [totalPrice] forgotten: two carts whose
    lines agree under [forget_totalPrice] differ at most in that field. *)
Definition forget_totalPrice (it : item) : item :=
  mkItem (product it) (quantity it) (unitPrice it) 0
         (specialInstructions it) (customization it) (addedAt it).

End Cart.

Module Order.

Record item := mkItem {
  product : nat;
  quantity : Q;
  unitPrice : Q;
  totalPrice : Q;
  customization : list Cart.custom
}.

Record payment := mkPayment {
  amount : Q;
  tax : Q;
  discount : Q;
  loyaltyDiscount : Q;
  finalAmount : Q
}.

Record order := mkOrder {
  items : list item;
  deliveryFee : Q;               (** [delivery.deliveryFee], default 0 *)
  payment_ : payment;
  loyaltyPointsUsed : Q          (** [loyaltyPoints.used] *)
}.

(** [orderSchema.methods.calculateTotal] *)
Definition calculateTotal (o : order) : order :=
  let p := payment_ o in
  let subtotal := fold_left (fun sum it => sum + totalPrice it) (items o) 0 in
  let total := subtotal + deliveryFee o + tax p - discount p - loyaltyDiscount p in
  mkOrder (items o) (deliveryFee o)
          (mkPayment subtotal (tax p) (discount p) (loyaltyDiscount p) (Qmax 0 total))
          (loyaltyPointsUsed o).

(** The totals formula as the claim states it for orders: the subtotal
    recomputed from quantities, unit prices and customization costs, the
    tax at 23% of it and the loyalty discount at 1 cent per point. *)
Definition claim_subtotal (l : list item) : Q :=
  qsum (map (fun it => quantity it * unitPrice it) l)
  + qsum (map (fun it => qsum (map (fun cu => or_zero (Cart.additionalCost cu))
                                   (customization it))) l).

Definition claim_total_ok (o : order) : Prop :=
  let s := claim_subtotal (items o) in
  finalAmount (payment_ o)
  == Qmax 0 (s + deliveryFee o + s * (23 # 100) - discount (payment_ o)
             - loyaltyPointsUsed o * (1 # 100)).

(** What [calculateTotal] establishes: the stored line totals and the
    stored tax and discounts. *)
Definition total_ok (o : order) : Prop :=
  let p := payment_ o in
  amount p == qsum (map totalPrice (items o))
  /\ finalAmount p == Qmax 0 (amount p + deliveryFee o + tax p
                              - discount p - loyaltyDiscount p).

End Order.

(** The order-number pre-save hook of [orderSchema] (src/unnamed/part_001),
    over the order numbers already stored in the collection. *)
Module OrderNumber.
Local Open Scope string_scope.
Local Open Scope nat_scope.

(** The character of a decimal digit. *)
Definition digit (d : nat) : ascii := ascii_of_nat (48 + d).

(** [n.toString()] for a non-negative integer, most significant digit
    first; [fuel] bounds the number of digits. *)
Fixpoint to_string_fuel (fuel n : nat) : string :=
  match fuel with
  | 0 => ""
  | S f =>
      if n <? 10 then String (digit n) ""
      else to_string_fuel f (n / 10) ++ String (digit (n mod 10)) ""
  end.

Definition toString (n : nat) : string := to_string_fuel (S n) n.

(** [s.slice(-k)] *)
Definition slice_last (k : nat) (s : string) : string :=
  substring (length s - k) k s.

Fixpoint zeros (m : nat) : string :=
  match m with 0 => "" | S m' => String "0" (zeros m') end.

(** [s.padStart(k, '0')] *)
Definition padStart (k : nat) (s : string) : string :=
  if k <=? length s then s else zeros (k - length s) ++ s.

Definition is_digit (c : ascii) : bool :=
  (48 <=? nat_of_ascii c) && (nat_of_ascii c <=? 57).

Fixpoint parse_digits (s : string) (acc : option nat) : option nat :=
  match s with
  | EmptyString => acc
  | String c r =>
      if is_digit c
      then parse_digits r (Some (10 * match acc with Some v => v | None => 0 end
                                 + (nat_of_ascii c - 48)))
      else acc
  end.

(** [parseInt(s)] on a string without leading blanks or sign: the value
    of its leading digits, [None] (NaN) when there is none. *)
Definition parseInt (s : string) : option nat := parse_digits s None.

(** A JavaScript number that is a non-negative integer or NaN, printed by
    [toString]. *)
Definition num_toString (x : option nat) : string :=
  match x with Some k => toString k | None => "NaN" end.

(** [findOne({orderNumber: /^prefix/}).sort({orderNumber: -1})]: the
    greatest matching order number in byte order, the first one found
    among equals. *)
Definition last_order_step (pre : string) (best : option string) (s : string)
  : option string :=
  if prefix pre s then
    match best with
    | None => Some s
    | Some b => match String.compare s b with Gt => Some s | _ => best end
    end
  else best.

Definition last_order (existing : list string) (pre : string) : option string :=
  fold_left (last_order_step pre) existing None.

(** ["SP" + year + month + day] for [date.getFullYear()] = [y],
    [date.getMonth()] = [m0] (0-based) and [date.getDate()] = [d]. *)
Definition day_prefix (y m0 d : nat) : string :=
  "SP" ++ slice_last 2 (toString y) ++ padStart 2 (toString (m0 + 1))
       ++ padStart 2 (toString d).

(** The order number given to a new order. *)
Definition generate (existing : list string) (y m0 d : nat) : string :=
  let pre := day_prefix y m0 d in
  let sequence :=
    match last_order existing pre with
    | None => Some 1
    | Some l => option_map S (parseInt (slice_last 3 l))
    end in
  pre ++ padStart 3 (num_toString sequence).

(** The order numbers of [n] orders created one after another on day
    [y]/[m0]/[d], when no order of that day existed before: each save runs
    the hook against the numbers already stored, newest first. *)
Fixpoint create_orders (n y m0 d : nat) : list string :=
  match n with
  | 0 => []
  | S k => let stored := create_orders k y m0 d in generate stored y m0 d :: stored
  end.

(** The formats named by the specification. *)
Definition two_digits (n : nat) : string :=
  String (digit (n / 10)) (String (digit (n mod 10)) "").

Definition seq3 (k : nat) : string :=
  String (digit (k / 100)) (String (digit ((k / 10) mod 10))
                                   (String (digit (k mod 10)) "")).

End OrderNumber.

Module Loyalty.

Inductive tier := Bronze | Silver | Gold | Platinum.

Definition tier_eqb (a b : tier) : bool :=
  match a, b with
  | Bronze, Bronze | Silver, Silver | Gold, Gold | Platinum, Platinum => true
  | _, _ => false
  end.

Record points_t := mkPoints {
  current : Q;
  total : Q;
  used : Q;
  expired : Q
}.

Record tier_entry := mkTierEntry {
  h_tier : tier;
  achievedAt : nat;
  pointsRequired : Q;
  pointsAchieved : Q
}.

Record benefits_t := mkBenefits {
  discountPercentage : Q;
  freeDelivery : bool;
  prioritySupport : bool;
  exclusiveOffers : bool;
  birthdayReward : bool;
  earlyAccess : bool
}.

Inductive tx_type := Earned | Used | Expired | Bonus | Adjustment.

Record transaction := mkTransaction {
  type : tx_type;
  amount : Q;
  description : string;
  order : option nat;
  expiresAt : option nat
}.

Record account := mkAccount {
  points : points_t;
  tier_current : tier;
  tier_history : list tier_entry;
  benefits : benefits_t;
  transactions : list transaction;
  totalOrders : nat;              (** [statistics.totalOrders] *)
  lastOrderDate : option nat      (** [statistics.lastOrderDate] *)
}.

(** A new account: every field at its schema default. *)
Definition fresh_account : account :=
  mkAccount (mkPoints 0 0 0 0) Bronze []
            (mkBenefits (5 # 100) false false false false false) [] 0 None.

(** [loyaltySchema.methods.calculateTier] *)
Definition calculateTier (a : account) : tier :=
  if Qle_bool 1000 (current (points a)) then Platinum
  else if Qle_bool 500 (current (points a)) then Gold
  else if Qle_bool 200 (current (points a)) then Silver
  else Bronze.

(** [loyaltySchema.methods.getPointsRequiredForTier] *)
Definition getPointsRequiredForTier (t : tier) : Q :=
  match t with Bronze => 0 | Silver => 200 | Gold => 500 | Platinum => 1000 end.

(** The [tierBenefits] table of [updateBenefits]. *)
Definition tierBenefits (t : tier) : benefits_t :=
  match t with
  | Bronze => mkBenefits (5 # 100) false false false false false
  | Silver => mkBenefits (10 # 100) true false true true false
  | Gold => mkBenefits (15 # 100) true true true true true
  | Platinum => mkBenefits (20 # 100) true true true true true
  end.

(** [loyaltySchema.methods.updateTier], with [updateBenefits] inlined;
    [now] is [new Date()]. *)
Definition updateTier (a : account) (now : nat) : account :=
  let newTier := calculateTier a in
  if tier_eqb newTier (tier_current a) then a
  else
    let entry := mkTierEntry newTier now (getPointsRequiredForTier newTier)
                             (current (points a)) in
    mkAccount (points a) newTier (tier_history a ++ [entry])
              (tierBenefits newTier) (transactions a) (totalOrders a)
              (lastOrderDate a).

(** The validators of [loyaltySchema] on the modelled fields. *)
Definition valid (a : account) : bool :=
  let p := points a in
  Qle_bool 0 (current p) && Qle_bool 0 (total p) && Qle_bool 0 (used p)
  && Qle_bool 0 (expired p)
  && Qle_bool 0 (discountPercentage (benefits a))
  && Qle_bool (discountPercentage (benefits a)) 1
  && forallb (fun t => negb (String.eqb (description t) "")) (transactions a).

(** [this.save()]: validation, then the pre-save hook [updateTier]. *)
Definition save (a : account) (now : nat) : result account :=
  if valid a then Ok (updateTier a now) else Err ValidationError.

(** The stored account after a call: the saved document, or the previous
    one when the call threw or its save was rejected. *)
Definition persist (old : account) (r : result account) : account :=
  match r with Ok a => a | Err _ => old end.

(** [loyaltySchema.methods.addPoints]; [expiresIn] is a number of days
    ([None] for the default [null]). *)
Definition addPoints (a : account) (amt : Q) (desc : string) (orderId : option nat)
           (expiresIn : option nat) (now : nat) : result account :=
  let tx := mkTransaction Earned amt desc orderId
              (match expiresIn with
               | Some (S _ as e) => Some (now + e * 24 * 60 * 60 * 1000)%nat
               | _ => None
               end) in
  let p := points a in
  let a' := mkAccount (mkPoints (current p + amt) (total p + amt) (used p) (expired p))
                      (tier_current a) (tier_history a) (benefits a)
                      (transactions a ++ [tx]) (S (totalOrders a))
                      (match orderId with Some _ => Some now | None => lastOrderDate a end) in
  save a' now.

(** [loyaltySchema.methods.usePoints] *)
Definition usePoints (a : account) (amt : Q) (desc : string) (orderId : option nat)
           (now : nat) : result account :=
  let p := points a in
  if negb (Qle_bool amt (current p)) then Err InsufficientPoints
  else
    let tx := mkTransaction Used (- amt) desc orderId None in
    let a' := mkAccount (mkPoints (current p - amt) (total p) (used p + amt) (expired p))
                        (tier_current a) (tier_history a) (benefits a)
                        (transactions a ++ [tx]) (totalOrders a) (lastOrderDate a) in
    save a' now.

(** The points balance of the specification. *)
Definition points_inv (a : account) : Prop :=
  let p := points a in
  total p == used p + expired p + current p
  /\ 0 <= current p /\ 0 <= total p /\ 0 <= used p /\ 0 <= expired p.

Definition tier_rank (t : tier) : nat :=
  match t with Bronze => 0 | Silver => 1 | Gold => 2 | Platinum => 3 end.

End Loyalty.

(** [deliverySchema] (src/models/Contact.js) and the driver completion
    route [PUT /driver/:deliveryId/complete] (src/unnamed/part_010). *)
Module Delivery.
Local Open Scope string_scope.

Record location := mkLocation {
  lat : Q;
  lng : Q;
  timestamp : nat;
  accuracy : Q
}.

(** An entry of [status.history]; only the schema paths are kept
    (Mongoose drops the others in strict mode). *)
Record status_entry := mkStatusEntry {
  se_status : string;
  se_timestamp : nat;
  se_note : string
}.

(** The modelled paths of a delivery.  [completedAt], assigned by the
    completion route, is not a path of [deliverySchema]. *)
Record delivery := mkDelivery {
  driver : option nat;
  order : nat;
  status_current : string;
  status_history : list status_entry;
  deliveryNotes : string;          (** "" when unset *)
  lastLocation : option location;
  locationHistory : list location
}.

(** The [enum] of [status.current] and [status.history.status]. *)
Definition status_enum : list string :=
  ["pending"; "confirmed"; "preparing"; "ready"; "assigned"; "picked_up";
   "out_for_delivery"; "delivered"; "failed"; "cancelled"].

Definition in_enum (st : string) : bool := existsb (String.eqb st) status_enum.

Definition valid (d : delivery) : bool :=
  in_enum (status_current d) && forallb (fun e => in_enum (se_status e)) (status_history d).

(** [this.save()] on a document loaded as [old] and modified into [d]:
    validation, then the pre-save hook that records a modified
    [status.current] in the history. *)
Definition save (old d : delivery) (now : nat) : result delivery :=
  if valid d then
    if String.eqb (status_current d) (status_current old) then Ok d
    else
      let note := if String.eqb (deliveryNotes d) "" then "Status atualizado"
                  else deliveryNotes d in
      Ok (mkDelivery (driver d) (order d) (status_current d)
            (status_history d ++ [mkStatusEntry (status_current d) now note])%list
            (deliveryNotes d) (lastLocation d) (locationHistory d))
  else Err ValidationError.

(** [arr.slice(-k)] on a list. *)
Definition lastn {A} (k : nat) (l : list A) : list A :=
  skipn (List.length l - k) l.

(** [deliverySchema.methods.updateLocation]; both [new Date()] calls
    are taken at the same instant [now]. *)
Definition updateLocation (d : delivery) (la ln acc : Q) (now : nat) : result delivery :=
  let loc := mkLocation la ln now acc in
  let h := (locationHistory d ++ [loc])%list in
  let h' := if (100 <? List.length h)%nat then lastn 100 h else h in
  save d (mkDelivery (driver d) (order d) (status_current d) (status_history d)
                     (deliveryNotes d) (Some loc) h') now.

(** A sequence of calls [updateLocation(lat, lng, accuracy)] at times
    [now], each on the document saved by the previous one. *)
Fixpoint run_updates (d : delivery) (ps : list (Q * Q * Q * nat)) : result delivery :=
  match ps with
  | [] => Ok d
  | (la, ln, acc, now) :: r =>
      match updateLocation d la ln acc now with
      | Ok d' => run_updates d' r
      | Err e => Err e
      end
  end.

Definition to_location (p : Q * Q * Q * nat) : location :=
  let '(la, ln, acc, now) := p in mkLocation la ln now acc.

(** The state the completion route reads and writes: the delivery and the
    [status] of its order. *)
Record route_state := mkRouteState {
  rs_delivery : delivery;
  rs_order_status : string
}.

(** [PUT /driver/:deliveryId/complete] for a found delivery, called by the
    driver [user]; the HTTP status code and the stored state after the
    call.  [delivery.driver.toString()] throws on a null driver (500).
    The [notes] of the body go to a [notes] key of the history entry,
    which is not a schema path, so the stored [note] is unset. *)
Definition complete (st : route_state) (user : nat) (now : nat) : nat * route_state :=
  let d := rs_delivery st in
  match driver d with
  | None => (500%nat, st)
  | Some drv =>
      if negb (Nat.eqb drv user) then (403%nat, st)
      else
        let d1 := mkDelivery (driver d) (order d) "completed"
                    (status_history d ++ [mkStatusEntry "completed" now ""])%list
                    (deliveryNotes d) (lastLocation d) (locationHistory d) in
        match save d d1 now with
        | Err _ => (500%nat, st)
        | Ok d2 => (200%nat, mkRouteState d2 "delivered")
        end
  end.

End Delivery.

(** The query and loyalty methods of [cartSchema] (src/models/Cart.js)
    that the mutating methods above do not cover. *)
Module CartMethods.
Import Cart.

(** [cartSchema.methods.isEmpty]: [this.items.length === 0] *)
Definition isEmpty (c : cart) : bool := Nat.eqb (List.length (items c)) 0.

(** [cartSchema.methods.getItemCount]:
    [this.items.reduce((total, item) => total + item.quantity, 0)] *)
Definition getItemCount (c : cart) : Q :=
  fold_left (fun total it => total + quantity it) (items c) 0.

(** [cartSchema.methods.useLoyaltyPoints] *)
Definition useLoyaltyPoints (c : cart) (p : Q) : result cart :=
  save (calculateTotals (mkCart (items c) (deliveryFee c) (Qmax 0 p) (totals c))).

End CartMethods.

(** The query methods of [loyaltySchema] (src/models/Product.js). *)
Module LoyaltyMethods.
Import Loyalty.

(** [loyaltySchema.methods.canUsePoints]: [this.points.current >= amount] *)
Definition canUsePoints (a : account) (amt : Q) : bool :=
  Qle_bool amt (current (points a)).

(** [loyaltySchema.methods.getAvailableDiscount] *)
Definition getAvailableDiscount (a : account) (orderAmount : Q) : Q :=
  orderAmount * discountPercentage (benefits a).

(** The [tiers] array of [getNextTier]; [tier_rank] is its [indexOf]. *)
Definition tiers : list tier := [Bronze; Silver; Gold; Platinum].

(** [loyaltySchema.methods.getNextTier]; [None] is [null].  The stored
    tier is one of the enum values, so [indexOf] never yields -1. *)
Definition getNextTier (a : account) : option tier :=
  let currentIndex := tier_rank (tier_current a) in
  if Nat.eqb currentIndex (List.length tiers - 1) then None
  else nth_error tiers (S currentIndex).

(** [loyaltySchema.methods.getProgressToNextTier] *)
Definition getProgressToNextTier (a : account) : Q :=
  match getNextTier a with
  | None => 100
  | Some nextTier =>
      let currentPoints := current (points a) in
      let nextTierPoints := getPointsRequiredForTier nextTier in
      let currentTierPoints := getPointsRequiredForTier (tier_current a) in
      let progress := ((currentPoints - currentTierPoints)
                       / (nextTierPoints - currentTierPoints)) * 100 in
      Qmin 100 (Qmax 0 progress)
  end.

(** [loyaltySchema.methods.hasSpecialBenefits] *)
Definition hasSpecialBenefits (a : account) : bool :=
  match tier_current a with Gold | Platinum => true | _ => false end.

End LoyaltyMethods.

(** An order document of [orderSchema] (src/unnamed/part_001) with its
    status, for the methods that change an existing order.  Only the
    paths these methods read or write are modelled; the validators of the
    other paths can only reject more saves. *)
Module OrderDoc.
Local Open Scope string_scope.

(** An entry of [status.history]. *)
Record history_entry := mkEntry {
  h_status : string;
  h_timestamp : nat;
  h_note : string;
  h_updatedBy : option nat
}.

Record doc := mkDoc {
  body : Order.order;
  status_current : string;
  status_history : list history_entry;
  staffNotes : string;               (** "" when unset *)
  earned : Z                         (** [loyaltyPoints.earned] *)
}.

(** What an order method can throw or its save can reject. *)
Inductive order_error :=
| InvalidItemIndex        (** [new Error('Índice de item inválido')] *)
| HistoryTypeError        (** reading [.updatedBy] of [history[-1]], i.e. undefined *)
| OrderValidationError.   (** a schema validator rejected the document *)

Definition status_enum : list string :=
  ["pending"; "confirmed"; "preparing"; "ready"; "out_for_delivery";
   "delivered"; "cancelled"; "refunded"].

Definition in_enum (st : string) : bool := existsb (String.eqb st) status_enum.

(** The [min] validators of the item sub-schema. *)
Definition item_valid (it : Order.item) : bool :=
  Qle_bool 1 (Order.quantity it) && Qle_bool 0 (Order.unitPrice it)
  && Qle_bool 0 (Order.totalPrice it).

Definition valid (d : doc) : bool :=
  let p := Order.payment_ (body d) in
  forallb item_valid (Order.items (body d))
  && Qle_bool 0 (Order.amount p) && Qle_bool 0 (Order.finalAmount p)
  && in_enum (status_current d)
  && forallb (fun e => in_enum (h_status e)) (status_history d).

(** [this.save()] on an existing order loaded as [old] and modified into
    [d] ([isNew] is false, so the order number hook does nothing):
    validation, then the hook that records a modified [status.current]. *)
Definition save (old d : doc) (now : nat) : doc + order_error :=
  if valid d then
    if String.eqb (status_current d) (status_current old) then inl d
    else
      let note := if String.eqb (staffNotes d) "" then "Status atualizado"
                  else staffNotes d in
      inl (mkDoc (body d) (status_current d)
                 (status_history d ++ [mkEntry (status_current d) now note None])%list
                 (staffNotes d) (earned d))
  else inr OrderValidationError.

Definition set_body (d : doc) (b : Order.order) : doc :=
  mkDoc b (status_current d) (status_history d) (staffNotes d) (earned d).

Definition set_items (b : Order.order) (l : list Order.item) : Order.order :=
  Order.mkOrder l (Order.deliveryFee b) (Order.payment_ b) (Order.loyaltyPointsUsed b).

(** [orderSchema.methods.addItem]; [specialInstructions] is not modelled. *)
Definition addItem (d : doc) (pid : nat) (q u : Q) (cust : list Cart.custom)
           (now : nat) : doc + order_error :=
  let totalPrice := q * u in
  let customizationCost := Cart.customizationCost cust in
  let b := body d in
  let line := Order.mkItem pid q u (totalPrice + customizationCost) cust in
  save d (set_body d (Order.calculateTotal (set_items b (Order.items b ++ [line])))) now.

(** [orderSchema.methods.removeItem] for an integer [itemIndex]:
    [splice(itemIndex, 1)] inside the bounds, an exception outside. *)
Definition removeItem (d : doc) (itemIndex : Z) (now : nat) : doc + order_error :=
  let b := body d in
  let its := Order.items b in
  if (0 <=? itemIndex)%Z && (itemIndex <? Z.of_nat (List.length its))%Z then
    let i := Z.to_nat itemIndex in
    save d (set_body d (Order.calculateTotal
                          (set_items b (firstn i its ++ skipn (S i) its)))) now
  else inr InvalidItemIndex.

(** Replace the last element of a list. *)
Fixpoint set_last (f : history_entry -> history_entry) (l : list history_entry)
  : list history_entry :=
  match l with
  | [] => []
  | [e] => [f e]
  | e :: r => e :: set_last f r
  end.

(** [orderSchema.methods.updateStatus(newStatus, note, updatedBy)];
    [None] for [updatedBy] is the default [null]. *)
Definition updateStatus (d : doc) (newStatus note : string) (updatedBy : option nat)
           (now : nat) : doc + order_error :=
  let d1 := mkDoc (body d) newStatus (status_history d) note (earned d) in
  match updatedBy with
  | None => save d d1 now
  | Some u =>
      match status_history d with
      | [] => inr HistoryTypeError
      | _ =>
          let h := set_last (fun e => mkEntry (h_status e) (h_timestamp e) (h_note e) (Some u))
                            (status_history d) in
          save d (mkDoc (body d) newStatus h note (earned d)) now
      end
  end.

(** [orderSchema.methods.calculateLoyaltyPoints]: the points and the
    order with [loyaltyPoints.earned] set. *)
Definition calculateLoyaltyPoints (d : doc) : Z * doc :=
  let pointsPerEuro := 1 in
  let e := Qfloor (Order.finalAmount (Order.payment_ (body d)) * pointsPerEuro) in
  (e, mkDoc (body d) (status_current d) (status_history d) (staffNotes d) e).

End OrderDoc.

(** [contactSchema] (src/models/Contact.js); dates are numbers of
    milliseconds.  Only the paths the methods read or write are modelled;
    the validators of the other paths can only reject more saves. *)
Module Contact.
Local Open Scope string_scope.

Record response_t := mkResponse {
  r_message : string;
  respondedBy : option nat;
  respondedAt : option Q;
  responseTime : option Q
}.

Record contact := mkContact {
  subject : string;
  priority : string;
  status : string;
  createdAt : Q;
  response : response_t
}.

Definition subject_enum : list string :=
  ["encomenda_especial"; "catering"; "informacoes"; "reclamacao"; "sugestao";
   "parceria"; "outro"].
Definition priority_enum : list string := ["low"; "normal"; "high"; "urgent"].
Definition status_enum : list string := ["new"; "in_progress"; "resolved"; "closed"].

Definition in_list (s : string) (l : list string) : bool := existsb (String.eqb s) l.

Definition valid (c : contact) : bool :=
  in_list (subject c) subject_enum && in_list (priority c) priority_enum
  && in_list (status c) status_enum.

Definition ms_per_hour : Q := 1000 * 60 * 60.

(** [Math.round] *)
Definition round (x : Q) : Q := inject_Z (Qfloor (x + (1 # 2))).

(** [!x] on a number that may be unset: undefined or 0. *)
Definition falsy (x : option Q) : bool :=
  match x with None => true | Some v => Qeq_bool v 0 end.

(** The pre-save hook that computes [response.responseTime]. *)
Definition responseTime_hook (c : contact) : contact :=
  let r := response c in
  match respondedAt r with
  | Some ra =>
      if falsy (responseTime r) then
        let rt := (ra - createdAt c) / ms_per_hour in
        mkContact (subject c) (priority c) (status c) (createdAt c)
                  (mkResponse (r_message r) (respondedBy r) (respondedAt r)
                              (Some (round (rt * 100) / 100)))
      else c
  | None => c
  end.

Definition save (c : contact) : result contact :=
  if valid c then Ok (responseTime_hook c) else Err ValidationError.

(** [contactSchema.methods.markAsResponded]; [now] is [new Date()]. *)
Definition markAsResponded (c : contact) (msg : string) (by_ : nat) (now : Q) : result contact :=
  save (mkContact (subject c) (priority c) "resolved" (createdAt c)
                  (mkResponse msg (Some by_) (Some now) None)).

(** The [priorityMap] of [updatePriority]. *)
Definition priorityMap (s : string) : option string :=
  if String.eqb s "reclamacao" then Some "high"
  else if String.eqb s "catering" then Some "normal"
  else if String.eqb s "encomenda_especial" then Some "normal"
  else if String.eqb s "informacoes" then Some "low"
  else if String.eqb s "sugestao" then Some "low"
  else if String.eqb s "parceria" then Some "normal"
  else if String.eqb s "outro" then Some "normal"
  else None.

(** [contactSchema.methods.updatePriority] *)
Definition updatePriority (c : contact) : result contact :=
  let p := match priorityMap (subject c) with Some p => p | None => "normal" end in
  save (mkContact (subject c) p (status c) (createdAt c) (response c)).

(** The [timeLimits] of [isOverdue]; [None] is [undefined]. *)
Definition timeLimits (p : string) : option Q :=
  if String.eqb p "low" then Some 72
  else if String.eqb p "normal" then Some 48
  else if String.eqb p "high" then Some 24
  else if String.eqb p "urgent" then Some 4
  else None.

(** [contactSchema.methods.isOverdue]; [now] is [new Date()].  A
    comparison with [undefined] is false. *)
Definition isOverdue (c : contact) (now : Q) : bool :=
  if negb (String.eqb (status c) "new") && negb (String.eqb (status c) "in_progress")
  then false
  else
    let hoursSinceCreation := (now - createdAt c) / ms_per_hour in
    match timeLimits (priority c) with
    | Some l => negb (Qle_bool hoursSinceCreation l)
    | None => false
    end.

End Contact.

(** The [ratings] of a product (src/models/Product.js) with the review
    method and the rating hook.  The other paths of the product are not
    modelled; their validators can only reject more saves. *)
Module ProductRatings.

(** A review; the [updatedAt] that [addReview] sets is not a schema path. *)
Record review := mkReview {
  user : nat;
  rating : Q;
  comment : string;
  createdAt : nat
}.

Record ratings := mkRatings {
  average : Q;
  count : nat;
  reviews : list review
}.

Definition review_valid (r : review) : bool :=
  Qle_bool 1 (rating r) && Qle_bool (rating r) 5
  && Nat.leb (String.length (comment r)) 500.

Definition valid (rs : ratings) : bool :=
  Qle_bool 0 (average rs) && Qle_bool (average rs) 5 && forallb review_valid (reviews rs).

(** The pre-save hook that computes the average rating. *)
Definition rating_hook (rs : ratings) : ratings :=
  let n := List.length (reviews rs) in
  if Nat.ltb 0 n then
    let totalRating := fold_left (fun sum r => sum + rating r) (reviews rs) 0 in
    mkRatings (totalRating / inject_Z (Z.of_nat n)) n (reviews rs)
  else rs.

Definition save (rs : ratings) : result ratings :=
  if valid rs then Ok (rating_hook rs) else Err ValidationError.

(** Update the first review satisfying [p] in place ([findIndex]). *)
Fixpoint update_first (p : review -> bool) (f : review -> review) (l : list review)
  : list review :=
  match l with
  | [] => []
  | x :: r => if p x then f x :: r else x :: update_first p f r
  end.

(** [productSchema.methods.addReview]; [now] is [new Date()]. *)
Definition addReview (rs : ratings) (userId : nat) (r : Q) (cm : string) (now : nat)
  : result ratings :=
  let same (x : review) := Nat.eqb (user x) userId in
  match find same (reviews rs) with
  | Some _ =>
      save (mkRatings (average rs) (count rs)
              (update_first same (fun x => mkReview (user x) r cm (createdAt x))
                            (reviews rs)))
  | None =>
      save (mkRatings (average rs) (count rs) (reviews rs ++ [mkReview userId r cm now]))
  end.

End ProductRatings.

(** [deliverySchema.methods.updateStatus(newStatus, note)] called without
    a [location] (the default [null]), on the delivery model above. *)
Module DeliveryMethods.
Import Delivery.

Definition updateStatus (d : delivery) (newStatus note : string) (now : nat) : result delivery :=
  save d (mkDelivery (driver d) (order d) newStatus (status_history d) note
                     (lastLocation d) (locationHistory d)) now.

End DeliveryMethods.

(** The document a call saved, or [d] when it threw or was rejected. *)
Definition ok_or {A} (d : A) (r : result A) : A :=
  match r with Ok a => a | Err _ => d end.

(** The same for a call returning a sum. *)
Definition inl_or {A E} (d : A) (r : A + E) : A :=
  match r with inl a => a | inr _ => d end.

(** Concrete documents used to exercise the theorems. *)
Module Samples.

Definition no_totals : Cart.cart_totals := Cart.mkTotals 0 0 0 0 0 0.

(** An empty cart. *)
Definition empty_cart : Cart.cart := Cart.mkCart [] None 0 no_totals.

(** A cart with two lines of product 1 and 2. *)
Definition line1 : Cart.item :=
  Cart.mkItem 1 2 (15 # 2) 15 "" [Cart.mkCustom "extra" "queijo" (Some 1)] 0.
Definition line2 : Cart.item := Cart.mkItem 2 1 4 4 "" [] 0.
Definition cart2 : Cart.cart := Cart.mkCart [line1; line2] (Some 3) 100 no_totals.

(** The same cart, where the first line carries the [totalPrice] that
    [addItem] leaves on a merged line (quantity x unitPrice only). *)
Definition cart2' : Cart.cart :=
  Cart.mkCart [Cart.mkItem 1 2 (15 # 2) 999 "" [Cart.mkCustom "extra" "queijo" (Some 1)] 0;
               line2] (Some 3) 100 no_totals.

(** An order of one line of 10 euro with the default tax of 0. *)
Definition order1 : Order.order :=
  Order.mkOrder [Order.mkItem 1 1 10 10 []] 0 (Order.mkPayment 10 0 0 0 10) 0.

(** A delivery on its way, assigned to driver 7, of order 3. *)
Definition delivery1 : Delivery.delivery :=
  Delivery.mkDelivery (Some 7%nat) 3%nat "out_for_delivery"%string [] ""%string None [].

Definition route1 : Delivery.route_state :=
  Delivery.mkRouteState delivery1 "out_for_delivery"%string.

(** 105 location updates: point n at time n. *)
Definition points105 : list (Q * Q * Q * nat) :=
  map (fun n => (inject_Z (Z.of_nat n), 0, 5, n)) (seq 0 105).

(** An account of 600 points still stored at bronze, and a consistent
    silver account of 350 points. *)
Definition stale600 : Loyalty.account :=
  Loyalty.mkAccount (Loyalty.mkPoints 600 600 0 0) Loyalty.Bronze []
                    (Loyalty.tierBenefits Loyalty.Bronze) [] 0 None.
Definition silver350 : Loyalty.account :=
  Loyalty.mkAccount (Loyalty.mkPoints 350 350 0 0) Loyalty.Silver []
                    (Loyalty.tierBenefits Loyalty.Silver) [] 0 None.

(** An order of two lines with one history entry. *)
Definition order2 : Order.order :=
  Order.mkOrder [Order.mkItem 1 1 10 10 []; Order.mkItem 2 2 3 6 []] 0
                (Order.mkPayment 16 0 0 0 16) 0.
Definition orderdoc2 : OrderDoc.doc :=
  OrderDoc.mkDoc order2 "pending"%string
                 [OrderDoc.mkEntry "pending"%string 0 "Status atualizado"%string None]
                 ""%string 0.

(** A new complaint of low priority created at time 0, and a product
    with one review of 4 stars by user 3. *)
Definition contact1 : Contact.contact :=
  Contact.mkContact "reclamacao"%string "low"%string "new"%string 0
                    (Contact.mkResponse ""%string None None None).
Definition ratings1 : ProductRatings.ratings :=
  ProductRatings.mkRatings 4 1 [ProductRatings.mkReview 3 4 "bom"%string 0].

End Samples.

(* ================================================================== *)
(** * Proofs *)

Section Sums.
Context {A : Type}.

Lemma fold_Qplus_acc (l : list Q) (a : Q) :
  fold_left Qplus l a == a + qsum l.
Proof.
  revert a; induction l as [|x l IH]; intro a; unfold qsum; simpl.
  - ring.
  - rewrite (IH (a + x)). unfold qsum in IH. rewrite (IH (0 + x)). unfold qsum; ring.
Qed.

Lemma qsum_cons (x : Q) (l : list Q) : qsum (x :: l) == x + qsum l.
Proof. unfold qsum at 1; simpl. rewrite fold_Qplus_acc. ring. Qed.

Lemma fold_add_map (g : A -> Q) (l : list A) (a : Q) :
  fold_left (fun s x => s + g x) l a == a + qsum (map g l).
Proof.
  revert a; induction l as [|x l IH]; intro a; simpl.
  - unfold qsum; simpl; ring.
  - rewrite IH, qsum_cons. ring.
Qed.

Lemma fold_add2_map (g h : A -> Q) (l : list A) (a : Q) :
  fold_left (fun s x => s + g x + h x) l a
  == a + qsum (map g l) + qsum (map h l).
Proof.
  revert a; induction l as [|x l IH]; intro a; simpl.
  - unfold qsum; simpl; ring.
  - rewrite IH, !qsum_cons. ring.
Qed.

Lemma qsum_map_ext (g h : A -> Q) (l : list A) :
  (forall x, g x == h x) -> qsum (map g l) == qsum (map h l).
Proof.
  intro H; induction l as [|x l IH]; simpl.
  - reflexivity.
  - rewrite !qsum_cons, IH, H. reflexivity.
Qed.
End Sums.

Lemma customizationCost_sum (cs : list Cart.custom) :
  Cart.customizationCost cs
  == qsum (map (fun cu => or_zero (Cart.additionalCost cu)) cs).
Proof.
  unfold Cart.customizationCost.
  rewrite (fold_add_map (fun cu => or_zero (Cart.additionalCost cu))). ring.
Qed.

Lemma calculateTotals_ok (c : Cart.cart) : Cart.totals_ok (Cart.calculateTotals c).
Proof.
  assert (Hs : fold_left (fun sum it =>
                  sum + Cart.quantity it * Cart.unitPrice it
                  + Cart.customizationCost (Cart.customization it)) (Cart.items c) 0
               == Cart.spec_subtotal (Cart.items c)).
  { rewrite (fold_add2_map (fun it => Cart.quantity it * Cart.unitPrice it)
                           (fun it => Cart.customizationCost (Cart.customization it))).
    unfold Cart.spec_subtotal.
    rewrite (qsum_map_ext _ _ _ (fun it => customizationCost_sum (Cart.customization it))).
    ring. }
  unfold Cart.totals_ok, Cart.calculateTotals, Cart.set_totals; simpl.
  repeat split; try reflexivity; rewrite Hs; reflexivity.
Qed.

Lemma Cart_save_ok (c c' : Cart.cart) :
  Cart.save c = Ok c' -> Cart.totals_ok c'.
Proof.
  unfold Cart.save. destruct (forallb _ _); intro H; inversion H; subst.
  apply calculateTotals_ok.
Qed.

Lemma Cart_run_ok (c c' : Cart.cart) (o : Cart.op) :
  Cart.run c o = Ok c' -> Cart.totals_ok c'.
Proof.
  destruct o; simpl; unfold Cart.addItem, Cart.removeItem, Cart.updateItemQuantity,
    Cart.clearCart, Cart.applyDiscount;
    repeat match goal with
           | |- context [if ?b then _ else _] => destruct b
           | |- context [match ?m with Some _ => _ | None => _ end] => destruct m
           end;
    try apply Cart_save_ok; discriminate.
Qed.

Lemma Order_calculateTotal_ok (o : Order.order) :
  Order.total_ok (Order.calculateTotal o).
Proof.
  unfold Order.total_ok, Order.calculateTotal; simpl. split.
  - rewrite (fold_add_map Order.totalPrice). ring.
  - reflexivity.
Qed.

Lemma filter_absent (pid : nat) (l : list Cart.item) :
  find (Cart.same_product pid) l = None ->
  filter (fun it => negb (Cart.same_product pid it)) l = l.
Proof.
  induction l as [|it l IH]; simpl; [reflexivity|].
  destruct (Cart.same_product pid it); [discriminate|]. simpl.
  intro H; rewrite (IH H); reflexivity.
Qed.

Lemma Cart_set_items_same (c : Cart.cart) : Cart.set_items c (Cart.items c) = c.
Proof. destruct c; reflexivity. Qed.

Lemma Cart_save_not_found (c : Cart.cart) : Cart.save c <> Err NotFound.
Proof. unfold Cart.save. destruct (forallb _ _); discriminate. Qed.

(** ** Claim C1 *)

(** C1 (as stated): the order total is not the cart formula.  On an order
    of one 10 euro line whose stored tax is the schema default 0,
    [calculateTotal] yields 10, while the formula with the tax recomputed
    at 23% gives 12.30. *)
Lemma C1_order_total_counterexample :
  ~ Order.claim_total_ok (Order.calculateTotal Samples.order1).
Proof. unfold Order.claim_total_ok. vm_compute. intro H; discriminate H. Qed.

(** C1 (amended): every cart mutation (addItem, removeItem,
    updateItemQuantity, clearCart, applyDiscount) that succeeds leaves
    totals with subtotal = sum of quantity x unitPrice plus customization
    costs, tax = 23% of it, loyaltyDiscount = 1 cent per point and
    total = max(0, subtotal + deliveryFee + tax - discount -
    loyaltyDiscount), and so does calculateTotals itself; an order's
    calculateTotal sets payment.amount to the sum of the stored line
    totalPrice values and finalAmount to max(0, amount + deliveryFee +
    stored tax - discount - stored loyaltyDiscount). *)
Theorem C1_totals_invariant :
  (forall c, Cart.totals_ok (Cart.calculateTotals c))
  /\ (forall c o c', Cart.run c o = Ok c' -> Cart.totals_ok c')
  /\ (forall o, Order.total_ok (Order.calculateTotal o)).
Proof.
  split; [exact calculateTotals_ok|]. split.
  - intros c o c'; apply Cart_run_ok.
  - exact Order_calculateTotal_ok.
Qed.

Lemma C1_totals_invariant_witness :
  (exists c', Cart.run Samples.cart2 (Cart.OpRemove 2) = Ok c' /\ Cart.totals_ok c').
Proof.
  eexists; split; [vm_compute; reflexivity|].
  apply (proj1 (proj2 C1_totals_invariant) Samples.cart2 (Cart.OpRemove 2)).
  vm_compute; reflexivity.
Defined.

(** ** Claim C7 *)

(** C7 (as stated): removing a product that is not in the cart does not
    fail with a not-found error. *)
Lemma C7_remove_absent_counterexample :
  Cart.removeItem Samples.empty_cart 7 <> Err NotFound.
Proof. vm_compute. discriminate. Qed.

(** C7 (amended): updateItemQuantity(productId, n) with n <= 0 is exactly
    removeItem(productId); removeItem never fails with a not-found error,
    and on an absent productId it keeps the line items and only recomputes
    the totals and saves; updateItemQuantity(productId, n) with n > 0
    fails with a not-found error when the product is absent. *)
Theorem C7_update_remove :
  forall c pid n,
    (n <= 0 -> Cart.updateItemQuantity c pid n = Cart.removeItem c pid)
    /\ Cart.removeItem c pid <> Err NotFound
    /\ (find (Cart.same_product pid) (Cart.items c) = None ->
        Cart.removeItem c pid = Cart.save (Cart.calculateTotals c)
        /\ (0 < n -> Cart.updateItemQuantity c pid n = Err NotFound)).
Proof.
  intros c pid n. split; [|split].
  - intro Hn. unfold Cart.updateItemQuantity.
    apply Qle_bool_iff in Hn. rewrite Hn. reflexivity.
  - apply Cart_save_not_found.
  - intro Hf. split.
    + unfold Cart.removeItem. rewrite (filter_absent pid _ Hf), Cart_set_items_same.
      reflexivity.
    + intro Hn. unfold Cart.updateItemQuantity.
      destruct (Qle_bool n 0) eqn:E.
      * apply Qle_bool_iff in E. exfalso. apply (Qlt_not_le _ _ Hn E).
      * rewrite Hf. reflexivity.
Qed.

Lemma C7_update_remove_witness :
  Cart.updateItemQuantity Samples.cart2 1 (-1) = Cart.removeItem Samples.cart2 1
  /\ Cart.updateItemQuantity Samples.cart2 5 2 = Err NotFound.
Proof.
  split.
  - apply (proj1 (C7_update_remove Samples.cart2 1 (-1))). vm_compute. discriminate.
  - apply (proj2 (proj2 (proj2 (C7_update_remove Samples.cart2 5 2)) eq_refl)).
    vm_compute. reflexivity.
Defined.

(** ** Claim C10 *)

Lemma calculateTotals_subtotal_forget (l1 l2 : list Cart.item) (a : Q) :
  map Cart.forget_totalPrice l1 = map Cart.forget_totalPrice l2 ->
  fold_left (fun sum it => sum + Cart.quantity it * Cart.unitPrice it
                           + Cart.customizationCost (Cart.customization it)) l1 a
  = fold_left (fun sum it => sum + Cart.quantity it * Cart.unitPrice it
                             + Cart.customizationCost (Cart.customization it)) l2 a.
Proof.
  revert l2 a; induction l1 as [|x l1 IH]; intros [|y l2] a H; simpl in *;
    try discriminate; [reflexivity|].
  destruct x, y; unfold Cart.forget_totalPrice in H; simpl in H.
  injection H; intros; subst. simpl.
  apply IH; assumption.
Qed.

(** C10: two carts that differ only in the stored per-line totalPrice
    values get identical totals from calculateTotals; the stored
    totalPrice is never read. *)
Theorem C10_totals_ignore_totalPrice :
  forall c1 c2,
    map Cart.forget_totalPrice (Cart.items c1) = map Cart.forget_totalPrice (Cart.items c2) ->
    Cart.deliveryFee c1 = Cart.deliveryFee c2 ->
    Cart.loyaltyPointsUsed c1 = Cart.loyaltyPointsUsed c2 ->
    Cart.totals c1 = Cart.totals c2 ->
    Cart.totals (Cart.calculateTotals c1) = Cart.totals (Cart.calculateTotals c2).
Proof.
  intros [i1 f1 p1 t1] [i2 f2 p2 t2] Hi Hf Hp Ht; simpl in *; subst.
  unfold Cart.calculateTotals; simpl.
  rewrite (calculateTotals_subtotal_forget i1 i2 0 Hi). reflexivity.
Qed.

Lemma C10_totals_ignore_totalPrice_witness :
  Cart.totals (Cart.calculateTotals Samples.cart2)
  = Cart.totals (Cart.calculateTotals Samples.cart2').
Proof.
  apply C10_totals_ignore_totalPrice; reflexivity.
Defined.

(** ** Order numbers *)

Module OrderNumberFacts.
Import OrderNumber.
Local Open Scope string_scope.
Local Open Scope nat_scope.

Lemma to_string_fuel_S (f n : nat) :
  to_string_fuel (S f) n
  = if n <? 10 then String (digit n) ""
    else to_string_fuel f (n / 10) ++ String (digit (n mod 10)) "".
Proof. reflexivity. Qed.

Lemma to_string_fuel_indep (f1 f2 n : nat) :
  n < f1 -> n < f2 -> to_string_fuel f1 n = to_string_fuel f2 n.
Proof.
  revert f2 n; induction f1 as [|f1 IH]; intros [|f2] n H1 H2; try lia.
  rewrite !to_string_fuel_S. destruct (n <? 10) eqn:E; [reflexivity|].
  apply Nat.ltb_ge in E.
  assert (n / 10 < n) by (apply Nat.div_lt; lia).
  rewrite (IH f2); [reflexivity | lia | lia].
Qed.

Lemma toString_small (n : nat) : n < 10 -> toString n = String (digit n) "".
Proof.
  intro H. unfold toString. rewrite to_string_fuel_S.
  apply Nat.ltb_lt in H. rewrite H. reflexivity.
Qed.

Lemma toString_unfold (n : nat) :
  10 <= n -> toString n = toString (n / 10) ++ String (digit (n mod 10)) "".
Proof.
  intro H. unfold toString at 1; rewrite to_string_fuel_S.
  destruct (n <? 10) eqn:E; [apply Nat.ltb_lt in E; lia|].
  assert (n / 10 < n) by (apply Nat.div_lt; lia).
  unfold toString. rewrite (to_string_fuel_indep n (S (n / 10))); [reflexivity | lia | lia].
Qed.

Lemma length_append (s t : string) : length (s ++ t) = length s + length t.
Proof. induction s; simpl; [reflexivity | rewrite IHs; reflexivity]. Qed.

Lemma substring_whole (t : string) : substring 0 (length t) t = t.
Proof. induction t; simpl; [reflexivity | rewrite IHt; reflexivity]. Qed.

Lemma slice_last_append (s t : string) : slice_last (length t) (s ++ t) = t.
Proof.
  unfold slice_last. rewrite length_append, Nat.add_sub.
  induction s; simpl; [apply substring_whole | exact IHs].
Qed.

Lemma append_assoc (a b c : string) : (a ++ b) ++ c = a ++ (b ++ c).
Proof. induction a; simpl; [reflexivity | rewrite IHa; reflexivity]. Qed.

Lemma append_cancel_l (p s t : string) : p ++ s = p ++ t -> s = t.
Proof. induction p; simpl; [trivial | intro H; injection H; exact IHp]. Qed.

Lemma prefix_append (p s : string) : prefix p (p ++ s) = true.
Proof.
  induction p; simpl; [destruct s; reflexivity|].
  destruct (ascii_dec a a); [exact IHp | congruence].
Qed.

Lemma compare_append_same (p s t : string) :
  String.compare (p ++ s) (p ++ t) = String.compare s t.
Proof.
  induction p; simpl; [reflexivity|].
  unfold Ascii.compare. rewrite N.compare_refl. exact IHp.
Qed.

(** The last two characters of the year. *)
Lemma slice_year (y : nat) :
  10 <= y -> slice_last 2 (toString y) = two_digits (y mod 100).
Proof.
  intro Hy.
  assert (Hm : y mod 100 = y mod 10 + 10 * ((y / 10) mod 10))
    by apply (Nat.Div0.mod_mul_r y 10 10).
  assert (Hr : y mod 10 < 10) by (apply Nat.mod_upper_bound; lia).
  assert (H1 : (y mod 100) / 10 = (y / 10) mod 10).
  { rewrite Hm, Nat.mul_comm, Nat.div_add by lia. rewrite Nat.div_small by lia. lia. }
  assert (H2 : (y mod 100) mod 10 = y mod 10).
  { rewrite Hm, Nat.mul_comm, Nat.Div0.mod_add. apply Nat.mod_small; lia. }
  unfold two_digits. rewrite H1, H2.
  rewrite (toString_unfold y Hy).
  destruct (Nat.lt_ge_cases (y / 10) 10) as [Hs|Hs].
  - rewrite (toString_small _ Hs), (Nat.mod_small (y / 10)) by lia. reflexivity.
  - rewrite (toString_unfold _ Hs), append_assoc.
    exact (slice_last_append _ (String _ (String _ ""))).
Qed.

Lemma pad2_two_digits (n : nat) : n < 100 -> padStart 2 (toString n) = two_digits n.
Proof.
  intro H.
  assert (Hall : forallb (fun n => String.eqb (padStart 2 (toString n)) (two_digits n))
                         (seq 0 100) = true) by (vm_compute; reflexivity).
  rewrite forallb_forall in Hall. apply String.eqb_eq, Hall, in_seq. lia.
Qed.

Lemma pad3_seq3 (k : nat) : k < 1000 -> padStart 3 (toString k) = seq3 k.
Proof.
  intro H.
  assert (Hall : forallb (fun k => String.eqb (padStart 3 (toString k)) (seq3 k))
                         (seq 0 1000) = true) by (vm_compute; reflexivity).
  rewrite forallb_forall in Hall. apply String.eqb_eq, Hall, in_seq. lia.
Qed.

Lemma parse_seq3 (k : nat) : k < 1000 -> parseInt (seq3 k) = Some k.
Proof.
  intro H.
  assert (Hall : forallb (fun k => match parseInt (seq3 k) with
                                   | Some v => Nat.eqb v k | None => false end)
                         (seq 0 1000) = true) by (vm_compute; reflexivity).
  rewrite forallb_forall in Hall. specialize (Hall k).
  destruct (parseInt (seq3 k)) as [v|]; [|discriminate Hall; apply in_seq; lia].
  f_equal. apply Nat.eqb_eq, Hall, in_seq. lia.
Qed.

Lemma seq3_inj (a b : nat) : a < 1000 -> b < 1000 -> seq3 a = seq3 b -> a = b.
Proof.
  intros Ha Hb E. pose proof (parse_seq3 a Ha) as Pa. rewrite E, parse_seq3 in Pa by exact Hb.
  injection Pa; auto.
Qed.

Lemma digit_compare (x y : nat) :
  x < 10 -> y < 10 -> Ascii.compare (digit x) (digit y) = Nat.compare x y.
Proof.
  intros Hx Hy.
  assert (Hall : forallb (fun x => forallb (fun y =>
            match Ascii.compare (digit x) (digit y), Nat.compare x y with
            | Eq, Eq | Lt, Lt | Gt, Gt => true | _, _ => false end)
            (seq 0 10)) (seq 0 10) = true) by (vm_compute; reflexivity).
  rewrite forallb_forall in Hall. specialize (Hall x ltac:(apply in_seq; lia)).
  rewrite forallb_forall in Hall. specialize (Hall y ltac:(apply in_seq; lia)).
  destruct (Ascii.compare _ _), (Nat.compare x y); solve [reflexivity | discriminate].
Qed.

Lemma digits3 (a : nat) :
  a < 1000 ->
  a = 100 * (a / 100) + 10 * ((a / 10) mod 10) + a mod 10
  /\ a / 100 < 10 /\ (a / 10) mod 10 < 10 /\ a mod 10 < 10.
Proof.
  intro H.
  pose proof (Nat.div_mod_eq a 10) as E1.
  pose proof (Nat.div_mod_eq (a / 10) 10) as E2.
  rewrite Nat.Div0.div_div in E2. change (10 * 10) with 100 in E2.
  pose proof (Nat.mod_upper_bound a 10 ltac:(lia)).
  pose proof (Nat.mod_upper_bound (a / 10) 10 ltac:(lia)).
  assert (a / 100 < 10) by (apply Nat.Div0.div_lt_upper_bound; lia).
  lia.
Qed.

Lemma seq3_compare (a b : nat) :
  a < 1000 -> b < 1000 -> String.compare (seq3 a) (seq3 b) = Nat.compare a b.
Proof.
  intros Ha Hb. unfold seq3. cbn [String.compare].
  destruct (digits3 a Ha) as (Ea & A2 & A1 & A0).
  destruct (digits3 b Hb) as (Eb & B2 & B1 & B0).
  rewrite !digit_compare by assumption.
  revert Ea Eb A2 A1 A0 B2 B1 B0.
  generalize (a / 100) (b / 100) ((a / 10) mod 10) ((b / 10) mod 10) (a mod 10) (b mod 10).
  intros a2 b2 a1 b1 a0 b0 Ea Eb A2 A1 A0 B2 B1 B0.
  destruct (Nat.compare_spec a2 b2);
    [destruct (Nat.compare_spec a1 b1);
      [destruct (Nat.compare_spec a0 b0)|..]|..];
    symmetry;
    solve [apply Nat.compare_eq_iff; lia
          | apply Nat.compare_lt_iff; lia
          | apply Nat.compare_gt_iff; lia].
Qed.

Lemma last_order_filter (pre : string) (l : list string) (acc : option string) :
  fold_left (last_order_step pre) l acc
  = fold_left (last_order_step pre) (filter (prefix pre) l) acc.
Proof.
  revert acc; induction l as [|s l IH]; intro acc; simpl; [reflexivity|].
  destruct (prefix pre s) eqn:E; simpl.
  - apply IH.
  - unfold last_order_step at 2. rewrite E. apply IH.
Qed.

Lemma last_order_max (pre : string) (ks : list nat) (m : nat) :
  Forall (fun k => k < 1000) (m :: ks) ->
  fold_left (last_order_step pre) (map (fun k => pre ++ seq3 k) ks) (Some (pre ++ seq3 m))
  = Some (pre ++ seq3 (Nat.max m (list_max ks))).
Proof.
  revert m; induction ks as [|k ks IH]; intros m H; simpl.
  - rewrite Nat.max_0_r. reflexivity.
  - inversion H as [|? ? Hm Hks]; subst. inversion Hks as [|? ? Hk Hks']; subst.
    unfold last_order_step at 2. rewrite prefix_append, compare_append_same,
      seq3_compare by assumption.
    assert (Hstep : fold_left (last_order_step pre) (map (fun k => pre ++ seq3 k) ks)
                      (Some (pre ++ seq3 (Nat.max m k)))
                    = Some (pre ++ seq3 (Nat.max (Nat.max m k) (list_max ks)))).
    { apply IH. constructor; [lia | exact Hks']. }
    rewrite <- Nat.max_assoc in Hstep.
    destruct (Nat.compare_spec k m).
    + subst. rewrite Nat.max_id in Hstep. exact Hstep.
    + rewrite Nat.max_l in Hstep by lia. exact Hstep.
    + rewrite Nat.max_r in Hstep by lia. exact Hstep.
Qed.

Lemma last_order_day (existing : list string) (pre : string) (ks : list nat) :
  filter (prefix pre) existing = map (fun k => pre ++ seq3 k) ks ->
  Forall (fun k => k < 1000) ks ->
  last_order existing pre
  = match ks with [] => None | _ => Some (pre ++ seq3 (list_max ks)) end.
Proof.
  intros Hf Hk. unfold last_order. rewrite last_order_filter, Hf.
  destruct ks as [|k ks]; simpl; [reflexivity|].
  inversion Hk; subst.
  unfold last_order_step at 2. rewrite prefix_append.
  apply last_order_max. assumption.
Qed.

Lemma seq3_length (k : nat) : String.length (seq3 k) = 3.
Proof. reflexivity. Qed.

(** While the day's numbers all carry a 3-digit sequence of at most 998,
    the hook numbers the new order with the next sequence. *)
Lemma generate_day (existing : list string) (y m0 d : nat) (ks : list nat) :
  filter (prefix (day_prefix y m0 d)) existing
    = map (fun k => day_prefix y m0 d ++ seq3 k) ks ->
  Forall (fun k => k <= 998) ks ->
  generate existing y m0 d
  = day_prefix y m0 d ++ seq3 (match ks with [] => 1 | _ => S (list_max ks) end).
Proof.
  intros Hf Hk.
  assert (Hmax : list_max ks <= 998) by (apply list_max_le; exact Hk).
  assert (Hk' : Forall (fun k => k < 1000) ks)
    by (eapply Forall_impl; [|exact Hk]; simpl; intros; lia).
  unfold generate. rewrite (last_order_day existing _ ks Hf Hk').
  destruct ks as [|k ks]; cbn [option_map].
  - unfold num_toString. rewrite pad3_seq3 by lia. reflexivity.
  - set (M := list_max (k :: ks)) in *.
    assert (Hs : slice_last 3 (day_prefix y m0 d ++ seq3 M) = seq3 M)
      by exact (slice_last_append _ (seq3 M)).
    rewrite Hs, parse_seq3 by lia. cbn [option_map].
    unfold num_toString. rewrite pad3_seq3 by lia. reflexivity.
Qed.

Lemma filter_prefix_day (pre : string) (ks : list nat) :
  filter (prefix pre) (map (fun k => pre ++ seq3 k) ks) = map (fun k => pre ++ seq3 k) ks.
Proof.
  induction ks as [|k ks IH]; simpl; [reflexivity|].
  rewrite prefix_append, IH. reflexivity.
Qed.

Lemma list_max_rev_seq (n : nat) : list_max (rev (seq 1 n)) = n.
Proof.
  apply Nat.le_antisymm.
  - apply list_max_le, Forall_forall. intros x Hx.
    apply in_rev, in_seq in Hx. lia.
  - destruct n as [|n]; [lia|].
    pose proof (proj1 (list_max_le (rev (seq 1 (S n))) _) (le_n _)) as F.
    rewrite Forall_forall in F. apply F. rewrite <- in_rev. apply in_seq. lia.
Qed.

(** The first 999 orders of a day are numbered 001 to 999. *)
Lemma create_orders_seq (n y m0 d : nat) :
  n <= 999 ->
  create_orders n y m0 d = map (fun k => day_prefix y m0 d ++ seq3 k) (rev (seq 1 n)).
Proof.
  induction n as [|n IH]; intro Hn; [reflexivity|].
  cbn [create_orders]. rewrite IH by lia.
  rewrite (generate_day _ y m0 d (rev (seq 1 n))).
  - assert (Hnext : match rev (seq 1 n) with [] => 1 | _ => S (list_max (rev (seq 1 n))) end
                     = S n).
    { destruct (rev (seq 1 n)) eqn:E.
      - apply (f_equal (@List.length nat)) in E.
        rewrite length_rev, length_seq in E. cbn in E. subst. reflexivity.
      - rewrite <- E, list_max_rev_seq. reflexivity. }
    rewrite Hnext, seq_S, rev_app_distr. reflexivity.
  - apply filter_prefix_day.
  - apply Forall_forall. intros x Hx. apply in_rev, in_seq in Hx. lia.
Qed.

End OrderNumberFacts.

Module OrderNumberClaims.
Import OrderNumber OrderNumberFacts.
Local Open Scope string_scope.
Local Open Scope nat_scope.

Lemma in_list_max (k : nat) (ks : list nat) : In k ks -> k <= list_max ks.
Proof.
  intro H. pose proof (proj1 (list_max_le ks (list_max ks)) (le_n _)) as F.
  rewrite Forall_forall in F. exact (F k H).
Qed.

Lemma create_orders_S (n y m0 d : nat) :
  create_orders (S n) y m0 d
  = generate (create_orders n y m0 d) y m0 d :: create_orders n y m0 d.
Proof. reflexivity. Qed.

Lemma rev_seq_S (n : nat) : rev (seq 1 (S n)) = S n :: rev (seq 1 n).
Proof. rewrite seq_S, rev_app_distr. reflexivity. Qed.

(** The 1000th order of a day gets the 4-digit sequence 1000. *)
Lemma generate_after_999 (y m0 d : nat) :
  generate (create_orders 999 y m0 d) y m0 d = day_prefix y m0 d ++ "1000".
Proof.
  rewrite create_orders_seq by lia. unfold generate.
  set (pre := day_prefix y m0 d).
  rewrite (last_order_day _ pre (rev (seq 1 999)) (filter_prefix_day pre _)).
  2:{ apply Forall_forall. intros x Hx. apply in_rev, in_seq in Hx. lia. }
  rewrite list_max_rev_seq, rev_seq_S.
  assert (Hs : slice_last 3 (pre ++ seq3 999) = seq3 999)
    by exact (slice_last_append pre (seq3 999)).
  rewrite Hs, parse_seq3 by lia.
  reflexivity.
Qed.

(** From sequence 1000 on, the greatest number of the day in byte order is
    the one ending in 999, so the next order is numbered 1000 again. *)
Lemma generate_after_1000 (y m0 d : nat) :
  generate (create_orders 1000 y m0 d) y m0 d = day_prefix y m0 d ++ "1000".
Proof.
  rewrite create_orders_S, generate_after_999, create_orders_seq by lia.
  rewrite rev_seq_S.
  assert (Hk : Forall (fun k => k < 1000) (rev (seq 1 998)))
    by (apply Forall_forall; intros x Hx; apply in_rev, in_seq in Hx; lia).
  pose proof (list_max_rev_seq 998) as Hm.
  revert Hk Hm. generalize (rev (seq 1 998)) as ks. intros ks Hk Hm.
  cbn [map]. unfold generate.
  set (pre := day_prefix y m0 d).
  assert (Hlast : last_order ((pre ++ "1000") :: (pre ++ seq3 999)
                              :: map (fun k => pre ++ seq3 k) ks) pre
                  = Some (pre ++ seq3 999)).
  { unfold last_order. cbn [fold_left].
    unfold last_order_step at 2 3. rewrite !prefix_append, compare_append_same.
    assert (C : String.compare (seq3 999) "1000" = Gt) by reflexivity.
    rewrite C, last_order_max, Hm by (constructor; [lia | exact Hk]).
    reflexivity. }
  assert (Hs : slice_last 3 (pre ++ seq3 999) = seq3 999)
    by exact (slice_last_append pre (seq3 999)).
  rewrite Hlast, Hs, parse_seq3 by lia.
  reflexivity.
Qed.

Lemma create_orders_1000 (y m0 d : nat) :
  create_orders 1000 y m0 d
  = (day_prefix y m0 d ++ "1000")
    :: map (fun k => day_prefix y m0 d ++ seq3 k) (999 :: rev (seq 1 998)).
Proof.
  rewrite create_orders_S, generate_after_999, create_orders_seq by lia.
  rewrite rev_seq_S. reflexivity.
Qed.

Lemma create_orders_1000_NoDup (y m0 d : nat) : NoDup (create_orders 1000 y m0 d).
Proof.
  rewrite create_orders_1000, <- rev_seq_S.
  assert (Hr : forall k, In k (rev (seq 1 999)) -> k < 1000)
    by (intros k Hk; apply in_rev, in_seq in Hk; lia).
  assert (Hn : NoDup (rev (seq 1 999))) by (apply NoDup_rev, seq_NoDup).
  revert Hr Hn. generalize (rev (seq 1 999)) as ks. intros ks Hr Hn.
  set (pre := day_prefix y m0 d).
  constructor.
  - intro HIn. apply in_map_iff in HIn. destruct HIn as [k [Ek _]].
    apply (f_equal String.length) in Ek. rewrite !length_append, seq3_length in Ek.
    cbn in Ek. lia.
  - apply NoDup_map_NoDup_ForallPairs; [|exact Hn].
    intros a b Ha Hb E. apply append_cancel_l in E.
    apply seq3_inj in E; auto.
Qed.

(** C6 (code_bug): the order number is meant to be unique (unique index
    and "gerar número de pedido único"), the sequence being the day's
    greatest plus 1.  The hook takes the greatest number in byte order and
    reads its last 3 characters: with SP241019999 and SP2410191000 stored
    on 19 October 2024 it numbers the new order SP2410191000 again.  This
    state is reached by the hook itself: after 1000 orders of a day, all
    numbered distinctly and the last one with sequence 1000, the 1001st
    order is given the number of the 1000th instead of sequence 1001. *)
Theorem C6_order_number_duplicate :
  generate ["SP241019999"; "SP2410191000"] 2024 9 19 = "SP2410191000"
  /\ forall y m0 d : nat,
       let stored := create_orders 1000 y m0 d in
       NoDup stored
       /\ In (day_prefix y m0 d ++ "999") stored
       /\ In (day_prefix y m0 d ++ "1000") stored
       /\ generate stored y m0 d = day_prefix y m0 d ++ "1000".
Proof.
  split; [vm_compute; reflexivity|].
  intros y m0 d stored. split; [|split; [|split]].
  - apply create_orders_1000_NoDup.
  - unfold stored. rewrite create_orders_1000. right. left. reflexivity.
  - unfold stored. rewrite create_orders_1000. left. reflexivity.
  - apply generate_after_1000.
Qed.

(** Order numbers below sequence 999: for a year of at least two digits,
    the order number is "SP" + the last two digits of the year + the
    2-digit month + the 2-digit day + a 3-digit zero-padded sequence, the
    sequence being 1 when no order of that day exists and the maximum
    existing sequence of that day plus 1 otherwise, provided the day's
    existing numbers all have 3-digit sequences of at most 998; the new
    number is then distinct from every existing one. *)
Theorem order_number_next :
  forall (existing : list string) (y m0 d : nat) (ks : list nat),
    10 <= y -> m0 < 12 -> 1 <= d <= 31 ->
    filter (prefix (day_prefix y m0 d)) existing
      = map (fun k => day_prefix y m0 d ++ seq3 k) ks ->
    Forall (fun k => k <= 998) ks ->
    day_prefix y m0 d
      = "SP" ++ two_digits (y mod 100) ++ two_digits (m0 + 1) ++ two_digits d
    /\ generate existing y m0 d
       = day_prefix y m0 d ++ seq3 (match ks with [] => 1 | _ => S (list_max ks) end)
    /\ ~ In (generate existing y m0 d) existing.
Proof.
  intros existing y m0 d ks Hy Hm Hd Hf Hk.
  pose proof (generate_day existing y m0 d ks Hf Hk) as Hgen.
  assert (Hmax : list_max ks <= 998) by (apply list_max_le; exact Hk).
  split; [|split].
  - unfold day_prefix. rewrite slice_year, !pad2_two_digits by lia. reflexivity.
  - exact Hgen.
  - rewrite Hgen. intro HIn.
    assert (HF : In (day_prefix y m0 d
                      ++ seq3 (match ks with [] => 1 | _ => S (list_max ks) end))
                    (filter (prefix (day_prefix y m0 d)) existing))
      by (apply filter_In; split; [exact HIn | apply prefix_append]).
    rewrite Hf in HF. apply in_map_iff in HF. destruct HF as [k [Ek Ik]].
    apply append_cancel_l in Ek.
    pose proof (in_list_max k ks Ik).
    destruct ks as [|k0 ks]; [contradiction|].
    apply seq3_inj in Ek; lia.
Qed.

Lemma order_number_next_witness :
  generate ["SP241019041"; "SP241019007"; "SP241018099"] 2024 9 19
    = day_prefix 2024 9 19 ++ seq3 42.
Proof.
  apply (proj1 (proj2 (order_number_next ["SP241019041"; "SP241019007"; "SP241018099"]
                         2024 9 19 [41; 7] ltac:(lia) ltac:(lia) ltac:(lia)
                         ltac:(vm_compute; reflexivity)
                         ltac:(repeat constructor; lia)))).
Defined.

End OrderNumberClaims.

(** ** Loyalty accounts *)

Module LoyaltyFacts.
Import Loyalty.

Lemma Qle_bool_false (x y : Q) : Qle_bool x y = false -> y < x.
Proof.
  intro H. apply Qnot_le_lt. intro H'. apply Qle_bool_iff in H'. congruence.
Qed.

Lemma tier_eqb_eq (a b : tier) : tier_eqb a b = true <-> a = b.
Proof. destruct a, b; simpl; split; congruence. Qed.

Lemma updateTier_points (a : account) (now : nat) :
  points (updateTier a now) = points a
  /\ transactions (updateTier a now) = transactions a.
Proof. unfold updateTier. destruct (tier_eqb _ _); split; reflexivity. Qed.

Lemma valid_points (a : account) :
  valid a = true ->
  0 <= current (points a) /\ 0 <= total (points a)
  /\ 0 <= used (points a) /\ 0 <= expired (points a).
Proof.
  unfold valid. rewrite !andb_true_iff, !Qle_bool_iff. tauto.
Qed.

Lemma save_ok (a a' : account) (now : nat) :
  save a now = Ok a' ->
  valid a = true /\ points a' = points a /\ transactions a' = transactions a.
Proof.
  unfold save. destruct (valid a) eqn:V; intro H; inversion H; subst.
  split; [reflexivity | apply updateTier_points].
Qed.

Lemma calculateTier_cases (a : account) :
  let c := current (points a) in
  (calculateTier a = Platinum /\ 1000 <= c)
  \/ (calculateTier a = Gold /\ 500 <= c /\ c < 1000)
  \/ (calculateTier a = Silver /\ 200 <= c /\ c < 500)
  \/ (calculateTier a = Bronze /\ c < 200).
Proof.
  unfold calculateTier; simpl.
  destruct (Qle_bool 1000 _) eqn:E1;
    [left; split; [reflexivity | apply Qle_bool_iff; exact E1]|].
  apply Qle_bool_false in E1.
  destruct (Qle_bool 500 _) eqn:E2;
    [right; left; split; [reflexivity | split; [apply Qle_bool_iff; exact E2 | exact E1]]|].
  apply Qle_bool_false in E2.
  destruct (Qle_bool 200 _) eqn:E3;
    [right; right; left; split; [reflexivity | split; [apply Qle_bool_iff; exact E3 | exact E2]]|].
  apply Qle_bool_false in E3.
  right; right; right. split; [reflexivity | exact E3].
Qed.

End LoyaltyFacts.

Module LoyaltyClaims.
Import Loyalty LoyaltyFacts.

(** C2: the balance total = used + expired + current, with all four
    fields non-negative, holds on a fresh account and in the stored
    account after every addPoints call (whether its save succeeds or is
    rejected) and after every successful usePoints call. *)
Theorem C2_points_conservation :
  points_inv fresh_account
  /\ (forall a amt desc oid exp now,
        points_inv a -> points_inv (persist a (addPoints a amt desc oid exp now)))
  /\ (forall a amt desc oid now a',
        points_inv a -> usePoints a amt desc oid now = Ok a' -> points_inv a').
Proof.
  split; [|split].
  - unfold points_inv; simpl. repeat split; lra.
  - intros a amt desc oid exp now Hinv. unfold addPoints.
    destruct (save _ now) as [a'|e] eqn:Hs; simpl; [|exact Hinv].
    apply save_ok in Hs. destruct Hs as (V & Hp & _).
    apply valid_points in V. unfold points_inv in *. rewrite Hp; simpl in *.
    destruct Hinv as (Heq & _). repeat split; try tauto. rewrite Heq. ring.
  - intros a amt desc oid now a' Hinv. unfold usePoints.
    destruct (negb _); [discriminate|]. intro Hs.
    apply save_ok in Hs. destruct Hs as (V & Hp & _).
    apply valid_points in V. unfold points_inv in *. rewrite Hp; simpl in *.
    destruct Hinv as (Heq & _). repeat split; try tauto. rewrite Heq. ring.
Qed.

Lemma C2_points_conservation_witness :
  points_inv (persist fresh_account (addPoints fresh_account 250 "pedido" (Some 1%nat) None 0%nat)).
Proof.
  apply (proj1 (proj2 C2_points_conservation)).
  apply (proj1 C2_points_conservation).
Defined.

(** C3: for amount > 0, usePoints fails with the insufficient-points
    error exactly when amount > points.current, and then the stored
    account is unchanged; when it succeeds it appends exactly one 'used'
    transaction of amount -amount, decreases current by amount and
    increases used by amount; on a valid account with a non-empty
    description and amount <= current it does succeed. *)
Theorem C3_usePoints :
  forall a amt desc oid now,
    0 < amt ->
    (usePoints a amt desc oid now = Err InsufficientPoints <-> current (points a) < amt)
    /\ (current (points a) < amt -> persist a (usePoints a amt desc oid now) = a)
    /\ (forall a', usePoints a amt desc oid now = Ok a' ->
          transactions a' = transactions a ++ [mkTransaction Used (- amt) desc oid None]
          /\ current (points a') == current (points a) - amt
          /\ used (points a') == used (points a) + amt
          /\ total (points a') == total (points a)
          /\ expired (points a') == expired (points a))
    /\ (valid a = true -> desc <> ""%string -> amt <= current (points a) ->
        exists a', usePoints a amt desc oid now = Ok a').
Proof.
  intros a amt desc oid now Hpos.
  assert (Hins : current (points a) < amt ->
                 usePoints a amt desc oid now = Err InsufficientPoints).
  { intro Hlt. unfold usePoints.
    destruct (Qle_bool amt _) eqn:E; [|reflexivity].
    apply Qle_bool_iff in E. exfalso. exact (Qlt_not_le _ _ Hlt E). }
  split; [|split; [|split]].
  - split; [|exact Hins].
    unfold usePoints. destruct (Qle_bool amt _) eqn:E; simpl.
    + unfold save. destruct (valid _); discriminate.
    + intros _. apply Qle_bool_false. exact E.
  - intro Hlt. rewrite (Hins Hlt). reflexivity.
  - intros a'. unfold usePoints.
    destruct (negb _); [discriminate|]. intro Hs.
    apply save_ok in Hs. destruct Hs as (_ & Hp & Ht).
    rewrite Hp, Ht; simpl. repeat split; reflexivity.
  - intros V Hd Hle. unfold usePoints.
    apply Qle_bool_iff in Hle. rewrite Hle; simpl.
    unfold save. eexists. apply Qle_bool_iff in Hle.
    pose proof (valid_points a V) as (P1 & P2 & P3 & P4).
    unfold valid in *; simpl in *.
    rewrite !andb_true_iff in V. destruct V as [[[[[[_ _] _] _] B1] B2] Ht].
    rewrite B1, B2, forallb_app, Ht; simpl.
    assert (Hd' : String.eqb desc "" = false) by (apply String.eqb_neq; exact Hd).
    rewrite Hd'.
    assert (H1 : Qle_bool 0 (current (points a) - amt) = true) by (apply Qle_bool_iff; lra).
    assert (H2 : Qle_bool 0 (used (points a) + amt) = true) by (apply Qle_bool_iff; lra).
    assert (H3 : Qle_bool 0 (total (points a)) = true) by (apply Qle_bool_iff; lra).
    assert (H4 : Qle_bool 0 (expired (points a)) = true) by (apply Qle_bool_iff; lra).
    rewrite H1, H2, H3, H4. reflexivity.
Qed.

Lemma C3_usePoints_witness :
  usePoints fresh_account 10 "desconto" None 0%nat = Err InsufficientPoints.
Proof.
  apply (proj1 (C3_usePoints fresh_account 10 "desconto" None 0%nat ltac:(lra))).
  vm_compute. reflexivity.
Defined.

(** C4: calculateTier depends on points.current only; it returns
    platinum iff current >= 1000, gold iff 500 <= current < 1000, silver
    iff 200 <= current < 500 and bronze iff current < 200; the tier is
    monotone nondecreasing in current. *)
Theorem C4_calculateTier :
  (forall a1 a2, current (points a1) == current (points a2) ->
                 calculateTier a1 = calculateTier a2)
  /\ (forall a, let c := current (points a) in
        (calculateTier a = Platinum <-> 1000 <= c)
        /\ (calculateTier a = Gold <-> 500 <= c /\ c < 1000)
        /\ (calculateTier a = Silver <-> 200 <= c /\ c < 500)
        /\ (calculateTier a = Bronze <-> c < 200))
  /\ (forall a1 a2, current (points a1) <= current (points a2) ->
                    (tier_rank (calculateTier a1) <= tier_rank (calculateTier a2))%nat).
Proof.
  split; [|split].
  - intros a1 a2 E.
    destruct (calculateTier_cases a1) as [(T1 & C1)|[(T1 & C1)|[(T1 & C1)|(T1 & C1)]]];
    destruct (calculateTier_cases a2) as [(T2 & C2)|[(T2 & C2)|[(T2 & C2)|(T2 & C2)]]];
    rewrite T1, T2; simpl in *; try reflexivity; exfalso; lra.
  - intro a. simpl.
    destruct (calculateTier_cases a) as [(T & C)|[(T & C)|[(T & C)|(T & C)]]];
      simpl in C; rewrite T;
      repeat split; intros; try discriminate; try reflexivity; try lra.
  - intros a1 a2 E.
    destruct (calculateTier_cases a1) as [(T1 & C1)|[(T1 & C1)|[(T1 & C1)|(T1 & C1)]]];
    destruct (calculateTier_cases a2) as [(T2 & C2)|[(T2 & C2)|[(T2 & C2)|(T2 & C2)]]];
    rewrite T1, T2; simpl in *; try lia; exfalso; lra.
Qed.

Lemma C4_calculateTier_witness :
  (tier_rank (calculateTier fresh_account)
   <= tier_rank (calculateTier (persist fresh_account
                   (addPoints fresh_account 250 "pedido" None None 0%nat))))%nat.
Proof.
  apply (proj2 (proj2 C4_calculateTier)). vm_compute. discriminate.
Defined.

(** C5: updateTier leaves the account unchanged when the derived tier
    equals the stored one; otherwise it appends exactly one tier-history
    entry (new tier, time, points required, pointsAchieved = current),
    sets tier.current to the derived tier and replaces the whole benefits
    object by the table entry of that tier.  An account whose current
    points cross 200 through addPoints flips from bronze to silver, with
    free delivery and one more history entry. *)
Theorem C5_updateTier :
  (forall a now,
     (calculateTier a = tier_current a -> updateTier a now = a)
     /\ (calculateTier a <> tier_current a ->
         let t := calculateTier a in
         let a' := updateTier a now in
         tier_history a' = tier_history a
                           ++ [mkTierEntry t now (getPointsRequiredForTier t)
                                           (current (points a))]
         /\ tier_current a' = t
         /\ benefits a' = tierBenefits t
         /\ points a' = points a /\ transactions a' = transactions a))
  /\ (forall a amt desc oid exp now,
        valid a = true -> tier_current a = Bronze ->
        current (points a) < 200 ->
        200 <= current (points a) + amt -> current (points a) + amt < 500 ->
        desc <> ""%string ->
        exists a', addPoints a amt desc oid exp now = Ok a'
                   /\ tier_current a' = Silver
                   /\ freeDelivery (benefits a') = true
                   /\ List.length (tier_history a') = S (List.length (tier_history a))).
Proof.
  split.
  - intros a now. unfold updateTier. split.
    + intro E. rewrite E. destruct (tier_current a); reflexivity.
    + intro E. destruct (tier_eqb _ _) eqn:T; [apply tier_eqb_eq in T; contradiction|].
      simpl. repeat split.
  - intros a amt desc oid exp now V Hb Hc H1 H2 Hd.
    pose proof (valid_points a V) as (P1 & P2 & P3 & P4).
    unfold valid in V.
    rewrite !andb_true_iff in V. destruct V as [[[[[[_ _] _] _] B1] B2] Ht].
    unfold addPoints, save, valid; simpl.
    rewrite B1, B2, forallb_app, Ht; simpl.
    assert (Hd' : String.eqb desc "" = false) by (apply String.eqb_neq; exact Hd).
    rewrite Hd'.
    assert (Q1 : Qle_bool 0 (current (points a) + amt) = true) by (apply Qle_bool_iff; lra).
    assert (Q2 : Qle_bool 0 (total (points a) + amt) = true) by (apply Qle_bool_iff; lra).
    assert (Q3 : Qle_bool 0 (used (points a)) = true) by (apply Qle_bool_iff; lra).
    assert (Q4 : Qle_bool 0 (expired (points a)) = true) by (apply Qle_bool_iff; lra).
    rewrite Q1, Q2, Q3, Q4. simpl.
    eexists; split; [reflexivity|].
    unfold updateTier. simpl.
    match goal with |- context [calculateTier ?x] =>
      destruct (calculateTier_cases x) as [(T & C)|[(T & C)|[(T & C)|(T & C)]]];
      simpl in C; try (exfalso; lra); rewrite T
    end.
    rewrite Hb; simpl. rewrite length_app; simpl. repeat split. lia.
Qed.

Lemma C5_updateTier_witness :
  exists a', addPoints fresh_account 250 "pedido" None None 0%nat = Ok a'
             /\ tier_current a' = Silver
             /\ freeDelivery (benefits a') = true
             /\ List.length (tier_history a') = S (List.length (tier_history fresh_account)).
Proof.
  apply (proj2 C5_updateTier); try reflexivity; simpl; try lra.
  discriminate.
Defined.

End LoyaltyClaims.

(** ** Deliveries *)

Module DeliveryClaims.
Import Delivery.

Lemma lastn_app_long {A} (k : nat) (p q : list A) :
  (k <= List.length q)%nat -> lastn k (p ++ q) = lastn k q.
Proof.
  intro H. unfold lastn. rewrite length_app, skipn_app.
  rewrite (skipn_all2 p) by lia. simpl.
  f_equal. lia.
Qed.

Lemma lastn_length {A} (k : nat) (l : list A) :
  List.length (lastn k l) = Nat.min k (List.length l).
Proof. unfold lastn. rewrite length_skipn. lia. Qed.

Lemma lastn_short {A} (k : nat) (l : list A) :
  (List.length l <= k)%nat -> lastn k l = l.
Proof.
  intro H. unfold lastn. replace (List.length l - k)%nat with 0%nat by lia. reflexivity.
Qed.

Lemma lastn_lastn_app {A} (k : nat) (l m : list A) :
  lastn k (lastn k l ++ m) = lastn k (l ++ m).
Proof.
  destruct (Nat.le_gt_cases (List.length l) k) as [H|H].
  - rewrite (lastn_short k l H). reflexivity.
  - rewrite <- (firstn_skipn (List.length l - k) l) at 2.
    rewrite <- app_assoc. symmetry. apply lastn_app_long.
    rewrite length_app. fold (lastn k l). rewrite lastn_length. lia.
Qed.

Lemma updateLocation_ok (d : delivery) (la ln acc : Q) (now : nat) :
  valid d = true ->
  updateLocation d la ln acc now
  = Ok (mkDelivery (driver d) (order d) (status_current d) (status_history d)
                   (deliveryNotes d) (Some (mkLocation la ln now acc))
                   (lastn 100 (locationHistory d ++ [mkLocation la ln now acc]))).
Proof.
  intro V. unfold updateLocation, save. unfold valid in *; simpl. rewrite V.
  rewrite String.eqb_refl.
  destruct (100 <? _)%nat eqn:E; [reflexivity|].
  apply Nat.ltb_ge in E. rewrite (lastn_short 100 _ E). reflexivity.
Qed.

Lemma run_updates_ok (d : delivery) (p : Q * Q * Q * nat) (ps : list (Q * Q * Q * nat)) :
  valid d = true ->
  exists d', run_updates d (p :: ps) = Ok d'
             /\ valid d' = true
             /\ locationHistory d' = lastn 100 (locationHistory d ++ map to_location (p :: ps)).
Proof.
  revert d p; induction ps as [|p' ps IH]; intros d [[[la ln] acc] now] V;
    cbn [run_updates]; rewrite (updateLocation_ok d la ln acc now V).
  - eexists; split; [reflexivity|]. split; [exact V|]. reflexivity.
  - destruct (IH (mkDelivery (driver d) (order d) (status_current d) (status_history d)
                   (deliveryNotes d) (Some (mkLocation la ln now acc))
                   (lastn 100 (locationHistory d ++ [mkLocation la ln now acc]))) p' V)
      as (d' & R & V' & H).
    exists d'. split; [exact R|]. split; [exact V'|].
    rewrite H; simpl. rewrite lastn_lastn_app, <- app_assoc. reflexivity.
Qed.

(** C9: on a delivery, each updateLocation(lat, lng, accuracy) call
    overwrites tracking.lastLocation with the new point and leaves in
    tracking.locationHistory the last 100 entries of the previous history
    followed by the point (at most 100 entries, the oldest dropped first);
    after any non-empty sequence of calls the history is the last 100 of
    all points appended, so after 105 updates from an empty history
    exactly the last 100 points remain. *)
Theorem C9_location_history :
  forall d, valid d = true ->
    (forall la ln acc now, exists d',
        updateLocation d la ln acc now = Ok d'
        /\ lastLocation d' = Some (mkLocation la ln now acc)
        /\ locationHistory d' = lastn 100 (locationHistory d ++ [mkLocation la ln now acc])
        /\ (List.length (locationHistory d') <= 100)%nat)
    /\ (forall p ps, exists d',
          run_updates d (p :: ps) = Ok d'
          /\ locationHistory d' = lastn 100 (locationHistory d ++ map to_location (p :: ps))
          /\ (List.length (locationHistory d') <= 100)%nat)
    /\ (forall ps, locationHistory d = [] -> List.length ps = 105%nat ->
          exists d', run_updates d ps = Ok d'
                     /\ locationHistory d' = skipn 5 (map to_location ps)
                     /\ List.length (locationHistory d') = 100%nat).
Proof.
  intros d V. split; [|split].
  - intros la ln acc now. eexists. split; [exact (updateLocation_ok d la ln acc now V)|].
    simpl. split; [reflexivity|]. split; [reflexivity|].
    rewrite lastn_length. lia.
  - intros p ps. destruct (run_updates_ok d p ps V) as (d' & R & _ & H).
    exists d'. split; [exact R|]. split; [exact H|]. rewrite H, lastn_length. lia.
  - intros [|p ps] E Hl; [discriminate|].
    destruct (run_updates_ok d p ps V) as (d' & R & _ & H).
    exists d'. split; [exact R|].
    rewrite H, E, app_nil_l. unfold lastn. rewrite length_map, Hl. split; [reflexivity|].
    rewrite length_skipn, length_map, Hl. reflexivity.
Qed.

Lemma C9_location_history_witness :
  exists d', run_updates Samples.delivery1 Samples.points105 = Ok d'
             /\ locationHistory d' = skipn 5 (map to_location Samples.points105)
             /\ List.length (locationHistory d') = 100%nat.
Proof.
  apply (proj2 (proj2 (C9_location_history Samples.delivery1 ltac:(vm_compute; reflexivity)))).
  - reflexivity.
  - vm_compute. reflexivity.
Defined.

(** C8: the driver completion route never stores the status
    'delivered': it assigns 'completed', which is outside the enum of
    status.current, so the save is rejected, the route answers 500 and
    neither the delivery nor the order changes; on the assigned driver's
    request for an out-for-delivery delivery the answer is 500. *)
Theorem C8_complete_route :
  (forall st user now,
      snd (complete st user now) = st /\ fst (complete st user now) <> 200%nat)
  /\ complete Samples.route1 7 1000 = (500%nat, Samples.route1).
Proof.
  split; [|vm_compute; reflexivity].
  intros st user now. unfold complete.
  destruct (driver (rs_delivery st)) as [drv|]; [|simpl; split; [reflexivity | discriminate]].
  destruct (negb (Nat.eqb drv user)); [simpl; split; [reflexivity | discriminate]|].
  unfold save, valid. simpl status_current.
  assert (Hc : in_enum "completed"%string = false) by reflexivity.
  rewrite Hc. simpl. split; [reflexivity | discriminate].
Qed.

End DeliveryClaims.

(* ================================================================== *)
(** * Further methods of the models *)

(** ** Carts *)

Module CartExtras.
Import Cart CartMethods.

Lemma calculateTotals_idem (c : cart) : calculateTotals (calculateTotals c) = calculateTotals c.
Proof. destruct c; reflexivity. Qed.

Lemma calculateTotals_items (c : cart) : items (calculateTotals c) = items c.
Proof. destruct c; reflexivity. Qed.

Lemma cart_save_inv (c c' : cart) :
  save c = Ok c' -> c' = calculateTotals c /\ forallb item_valid (items c) = true.
Proof.
  unfold save. destruct (forallb _ _) eqn:E; intro H; inversion H; subst. auto.
Qed.

Lemma getItemCount_sum (c : cart) : getItemCount c == qsum (map quantity (items c)).
Proof. unfold getItemCount. rewrite (fold_add_map quantity). ring. Qed.

Lemma qsum_app (l1 l2 : list Q) : qsum (l1 ++ l2) == qsum l1 + qsum l2.
Proof.
  unfold qsum at 1. rewrite fold_left_app. fold (qsum l1). rewrite fold_Qplus_acc. reflexivity.
Qed.

Lemma update_first_qsum (g : item -> Q) (p : item -> bool) (f : item -> item)
      (l : list item) (x : item) :
  find p l = Some x ->
  qsum (map g (update_first p f l)) == qsum (map g l) - g x + g (f x).
Proof.
  induction l as [|y l IH]; simpl; [discriminate|].
  destruct (p y); intro F.
  - inversion F; subst. simpl. rewrite !qsum_cons. ring.
  - simpl. rewrite !qsum_cons, (IH F). ring.
Qed.

Lemma update_first_products (p : item -> bool) (f : item -> item) (l : list item) :
  (forall it, product (f it) = product it) ->
  map product (update_first p f l) = map product l.
Proof.
  intro Hf. induction l as [|y l IH]; simpl; [reflexivity|].
  destruct (p y); simpl; rewrite ?Hf, ?IH; reflexivity.
Qed.

Lemma update_first_in (p : item -> bool) (f : item -> item) (l : list item) (x : item) :
  find p l = Some x -> In (f x) (update_first p f l).
Proof.
  induction l as [|y l IH]; simpl; [discriminate|].
  destruct (p y); intro F.
  - inversion F; subst. left; reflexivity.
  - right. exact (IH F).
Qed.

Lemma find_none_products (pid : nat) (l : list item) :
  find (same_product pid) l = None -> ~ In pid (map product l).
Proof.
  induction l as [|y l IH]; simpl; [tauto|].
  unfold same_product at 1. destruct (Nat.eqb (product y) pid) eqn:E; [discriminate|].
  apply Nat.eqb_neq in E. intros F [H|H]; [exact (E H) | exact (IH F H)].
Qed.

Lemma filter_idem {A} (p : A -> bool) (l : list A) : filter p (filter p l) = filter p l.
Proof.
  induction l as [|y l IH]; simpl; [reflexivity|].
  destruct (p y) eqn:E; simpl; [rewrite E, IH|]; [reflexivity | exact IH].
Qed.

Lemma qsum_filter_split {A} (g : A -> Q) (p : A -> bool) (l : list A) :
  qsum (map g l)
  == qsum (map g (filter p l)) + qsum (map g (filter (fun x => negb (p x)) l)).
Proof.
  induction l as [|y l IH]; simpl; [unfold qsum; simpl; ring|].
  destruct (p y); simpl; rewrite !qsum_cons, IH; ring.
Qed.

(** A successful [addItem] raises the item count by the quantity added,
    whether it merges into an existing line or appends a new one. *)
Theorem addItem_getItemCount (c c' : cart) (pid : nat) (q u : Q) (si : string)
        (cust : list custom) (now : nat) :
  addItem c pid q u si cust now = Ok c' ->
  getItemCount c' == getItemCount c + q.
Proof.
  unfold addItem. intro H. apply cart_save_inv in H as [-> _].
  rewrite !getItemCount_sum, !calculateTotals_items.
  destruct (find (same_product pid) (items c)) as [x|] eqn:F; simpl.
  - rewrite (update_first_qsum quantity _ _ _ x F). simpl. ring.
  - rewrite map_app, qsum_app. simpl. unfold qsum at 2; simpl. ring.
Qed.

(** [addItem] keeps at most one line per product. *)
Theorem addItem_NoDup (c c' : cart) (pid : nat) (q u : Q) (si : string)
        (cust : list custom) (now : nat) :
  NoDup (map product (items c)) ->
  addItem c pid q u si cust now = Ok c' ->
  NoDup (map product (items c')).
Proof.
  unfold addItem. intros N H. apply cart_save_inv in H as [-> _].
  rewrite !calculateTotals_items.
  destruct (find (same_product pid) (items c)) eqn:F; simpl.
  - rewrite update_first_products by reflexivity. exact N.
  - rewrite map_app. simpl. apply NoDup_app; [exact N | constructor; [tauto | constructor] |].
    intros a Ha [<-|[]]. exact (find_none_products pid _ F Ha).
Qed.

(** After a successful [removeItem] the cart holds exactly the lines of
    the other products, and the item count drops by the quantities of the
    removed lines. *)
Theorem removeItem_spec (c c' : cart) (pid : nat) :
  removeItem c pid = Ok c' ->
  (forall it, In it (items c') <-> In it (items c) /\ product it <> pid)
  /\ getItemCount c' == getItemCount c - qsum (map quantity (filter (same_product pid) (items c))).
Proof.
  unfold removeItem. intro H. apply cart_save_inv in H as [-> _].
  rewrite !calculateTotals_items. simpl. split.
  - intro it. rewrite filter_In. unfold same_product.
    rewrite negb_true_iff, Nat.eqb_neq. reflexivity.
  - rewrite !getItemCount_sum, !calculateTotals_items. simpl.
    rewrite (qsum_filter_split quantity (same_product pid) (items c)). ring.
Qed.

(** [removeItem] is idempotent: removing the same product again from the
    saved cart succeeds and gives the same cart. *)
Theorem removeItem_idem (c c' : cart) (pid : nat) :
  removeItem c pid = Ok c' -> removeItem c' pid = Ok c'.
Proof.
  unfold removeItem at 1. intro H. apply cart_save_inv in H as [Hc V].
  rewrite calculateTotals_items in V; simpl in V.
  unfold removeItem. subst c'. rewrite !calculateTotals_items. simpl.
  rewrite filter_idem.
  replace (set_items (calculateTotals (calculateTotals
             (set_items c (filter (fun it => negb (same_product pid it)) (items c)))))
             (filter (fun it => negb (same_product pid it)) (items c)))
    with (calculateTotals (calculateTotals
             (set_items c (filter (fun it => negb (same_product pid it)) (items c)))))
    by (destruct c; reflexivity).
  rewrite !calculateTotals_idem. unfold save.
  rewrite calculateTotals_items. simpl. rewrite V. reflexivity.
Qed.

(** [clearCart] leaves an empty cart that still carries its delivery fee,
    discount and loyalty points: the subtotal and tax are 0 and the total
    is [max(0, deliveryFee - discount - loyaltyDiscount)]. *)
Theorem clearCart_spec (c c' : cart) :
  clearCart c = Ok c' ->
  isEmpty c' = true /\ getItemCount c' == 0
  /\ subtotal (totals c') == 0 /\ tax (totals c') == 0
  /\ discount (totals c') = discount (totals c)
  /\ total (totals c') == Qmax 0 (or_zero (deliveryFee c) - discount (totals c)
                                  - loyaltyPointsUsed c * (1 # 100)).
Proof.
  unfold clearCart. intro H. apply cart_save_inv in H as [-> _].
  destruct c as [its fee lp t]; simpl.
  repeat split; try reflexivity.
  apply Q.max_compat; [reflexivity | ring].
Qed.

(** When the stored totals are current, [applyDiscount] stores a discount
    of [min(d, subtotal)], which never exceeds the recomputed subtotal. *)
Theorem applyDiscount_bounded (c c' : cart) (d : Q) :
  totals_ok c ->
  applyDiscount c d = Ok c' ->
  discount (totals c') == Qmin d (spec_subtotal (items c))
  /\ discount (totals c') <= subtotal (totals c').
Proof.
  intros [Hs _]. unfold applyDiscount. intro H. apply cart_save_inv in H as [-> _].
  assert (E : discount (totals (calculateTotals (calculateTotals (set_totals c
             (mkTotals (subtotal (totals c)) (t_deliveryFee (totals c)) (tax (totals c))
                (Qmin d (subtotal (totals c))) (loyaltyDiscount (totals c))
                (total (totals c)))))))
             = Qmin d (subtotal (totals c))) by (destruct c; reflexivity).
  rewrite E. split.
  - rewrite Hs. reflexivity.
  - destruct (calculateTotals_ok (calculateTotals (set_totals c
             (mkTotals (subtotal (totals c)) (t_deliveryFee (totals c)) (tax (totals c))
                (Qmin d (subtotal (totals c))) (loyaltyDiscount (totals c))
                (total (totals c)))))) as [Hs' _].
    rewrite Hs', !calculateTotals_items. simpl.
    rewrite <- Hs. apply Q.le_min_r.
Qed.

(** [useLoyaltyPoints] stores [max(0, points)]: the loyalty discount is
    never negative, so the total is at most the total without it. *)
Theorem useLoyaltyPoints_spec (c c' : cart) (p : Q) :
  useLoyaltyPoints c p = Ok c' ->
  loyaltyPointsUsed c' = Qmax 0 p
  /\ 0 <= loyaltyDiscount (totals c')
  /\ total (totals c') <= Qmax 0 (subtotal (totals c') + t_deliveryFee (totals c')
                                  + tax (totals c') - discount (totals c')).
Proof.
  unfold useLoyaltyPoints. intro H. apply cart_save_inv in H as [-> _].
  destruct (calculateTotals_ok (calculateTotals (mkCart (items c) (deliveryFee c) (Qmax 0 p) (totals c))))
    as (_ & _ & _ & Hl & Ht).
  assert (P : loyaltyPointsUsed (calculateTotals (calculateTotals
                (mkCart (items c) (deliveryFee c) (Qmax 0 p) (totals c)))) = Qmax 0 p)
    by reflexivity.
  rewrite P in Hl.
  assert (L : 0 <= loyaltyDiscount (totals (calculateTotals (calculateTotals
                (mkCart (items c) (deliveryFee c) (Qmax 0 p) (totals c)))))).
  { rewrite Hl. apply Qmult_le_0_compat; [apply Q.le_max_l | discriminate]. }
  split; [exact P|]. split; [exact L|].
  rewrite Ht. apply Q.max_le_compat_l. lra.
Qed.

(** [updateItemQuantity] on a product of the cart: a quantity strictly
    between 0 and 1 is rejected by the [min: 1] validator, and a positive
    quantity that is saved replaces the first line's quantity in the
    item count. *)
Theorem updateItemQuantity_spec (c : cart) (pid : nat) (n : Q) (it : item) :
  find (same_product pid) (items c) = Some it ->
  (0 < n -> n < 1 -> updateItemQuantity c pid n = Err ValidationError)
  /\ (forall c', 0 < n -> updateItemQuantity c pid n = Ok c' ->
                 getItemCount c' == getItemCount c - quantity it + n).
Proof.
  intro F. unfold updateItemQuantity.
  assert (NP : forall n, 0 < n -> Qle_bool n 0 = false).
  { intros m Hm. destruct (Qle_bool m 0) eqn:E; [|reflexivity].
    apply Qle_bool_iff in E. lra. }
  split.
  - intros H0 H1. rewrite (NP n H0), F. unfold save.
    rewrite calculateTotals_items. simpl.
    destruct (forallb item_valid _) eqn:V; [|reflexivity].
    rewrite forallb_forall in V.
    specialize (V _ (update_first_in _ (fun it0 => mkItem (product it0) n (unitPrice it0)
                     (n * unitPrice it0) (specialInstructions it0) (customization it0)
                     (addedAt it0)) _ _ F)).
    unfold item_valid in V; simpl in V.
    destruct (Qle_bool 1 n) eqn:E; [apply Qle_bool_iff in E; lra | discriminate].
  - intros c' H0 H. rewrite (NP n H0), F in H. apply cart_save_inv in H as [-> _].
    rewrite !getItemCount_sum, !calculateTotals_items. simpl.
    rewrite (update_first_qsum quantity _ _ _ it F). simpl. ring.
Qed.

End CartExtras.

Module CartExtrasWitnesses.
Import CartExtras.

Lemma addItem_getItemCount_witness :
  Cart.addItem Samples.cart2 1 1 (15 # 2) "" [] 0
  = Ok (ok_or Samples.cart2 (Cart.addItem Samples.cart2 1 1 (15 # 2) "" [] 0))
  /\ CartMethods.getItemCount (ok_or Samples.cart2 (Cart.addItem Samples.cart2 1 1 (15 # 2) "" [] 0))
     == CartMethods.getItemCount Samples.cart2 + 1.
Proof.
  assert (H : Cart.addItem Samples.cart2 1 1 (15 # 2) "" [] 0
              = Ok (ok_or Samples.cart2 (Cart.addItem Samples.cart2 1 1 (15 # 2) "" [] 0)))
    by (vm_compute; reflexivity).
  split; [exact H | exact (addItem_getItemCount _ _ _ _ _ _ _ _ H)].
Defined.

Lemma addItem_NoDup_witness :
  NoDup (map Cart.product (Cart.items Samples.cart2))
  /\ Cart.addItem Samples.cart2 3 2 5 "" [] 0
     = Ok (ok_or Samples.cart2 (Cart.addItem Samples.cart2 3 2 5 "" [] 0))
  /\ NoDup (map Cart.product (Cart.items
              (ok_or Samples.cart2 (Cart.addItem Samples.cart2 3 2 5 "" [] 0)))).
Proof.
  assert (N : NoDup (map Cart.product (Cart.items Samples.cart2)))
    by (simpl; repeat constructor; simpl; intuition discriminate).
  assert (H : Cart.addItem Samples.cart2 3 2 5 "" [] 0
              = Ok (ok_or Samples.cart2 (Cart.addItem Samples.cart2 3 2 5 "" [] 0)))
    by (vm_compute; reflexivity).
  split; [exact N | split; [exact H | exact (addItem_NoDup _ _ _ _ _ _ _ _ N H)]].
Defined.

Lemma removeItem_spec_witness :
  Cart.removeItem Samples.cart2 1
  = Ok (ok_or Samples.cart2 (Cart.removeItem Samples.cart2 1))
  /\ CartMethods.getItemCount (ok_or Samples.cart2 (Cart.removeItem Samples.cart2 1))
     == CartMethods.getItemCount Samples.cart2
        - qsum (map Cart.quantity (filter (Cart.same_product 1) (Cart.items Samples.cart2))).
Proof.
  assert (H : Cart.removeItem Samples.cart2 1
              = Ok (ok_or Samples.cart2 (Cart.removeItem Samples.cart2 1)))
    by (vm_compute; reflexivity).
  split; [exact H | exact (proj2 (removeItem_spec _ _ _ H))].
Defined.

Lemma removeItem_idem_witness :
  Cart.removeItem Samples.cart2 1
  = Ok (ok_or Samples.cart2 (Cart.removeItem Samples.cart2 1))
  /\ Cart.removeItem (ok_or Samples.cart2 (Cart.removeItem Samples.cart2 1)) 1
     = Ok (ok_or Samples.cart2 (Cart.removeItem Samples.cart2 1)).
Proof.
  assert (H : Cart.removeItem Samples.cart2 1
              = Ok (ok_or Samples.cart2 (Cart.removeItem Samples.cart2 1)))
    by (vm_compute; reflexivity).
  split; [exact H | exact (removeItem_idem _ _ _ H)].
Defined.

Lemma clearCart_spec_witness :
  Cart.clearCart Samples.cart2 = Ok (ok_or Samples.cart2 (Cart.clearCart Samples.cart2))
  /\ Cart.total (Cart.totals (ok_or Samples.cart2 (Cart.clearCart Samples.cart2)))
     == Qmax 0 (or_zero (Cart.deliveryFee Samples.cart2) - Cart.discount (Cart.totals Samples.cart2)
                - Cart.loyaltyPointsUsed Samples.cart2 * (1 # 100)).
Proof.
  assert (H : Cart.clearCart Samples.cart2 = Ok (ok_or Samples.cart2 (Cart.clearCart Samples.cart2)))
    by (vm_compute; reflexivity).
  split; [exact H | exact (proj2 (proj2 (proj2 (proj2 (proj2 (clearCart_spec _ _ H))))))].
Defined.

Lemma applyDiscount_bounded_witness :
  Cart.applyDiscount (Cart.calculateTotals Samples.cart2) 50
  = Ok (ok_or Samples.cart2 (Cart.applyDiscount (Cart.calculateTotals Samples.cart2) 50))
  /\ Cart.discount (Cart.totals (ok_or Samples.cart2
                                  (Cart.applyDiscount (Cart.calculateTotals Samples.cart2) 50)))
     <= Cart.subtotal (Cart.totals (ok_or Samples.cart2
                                  (Cart.applyDiscount (Cart.calculateTotals Samples.cart2) 50))).
Proof.
  assert (H : Cart.applyDiscount (Cart.calculateTotals Samples.cart2) 50
              = Ok (ok_or Samples.cart2 (Cart.applyDiscount (Cart.calculateTotals Samples.cart2) 50)))
    by (vm_compute; reflexivity).
  split; [exact H|].
  exact (proj2 (applyDiscount_bounded _ _ 50 (calculateTotals_ok Samples.cart2) H)).
Defined.

Lemma useLoyaltyPoints_spec_witness :
  CartMethods.useLoyaltyPoints Samples.cart2 (-20)
  = Ok (ok_or Samples.cart2 (CartMethods.useLoyaltyPoints Samples.cart2 (-20)))
  /\ Cart.loyaltyPointsUsed (ok_or Samples.cart2 (CartMethods.useLoyaltyPoints Samples.cart2 (-20)))
     = Qmax 0 (-20).
Proof.
  assert (H : CartMethods.useLoyaltyPoints Samples.cart2 (-20)
              = Ok (ok_or Samples.cart2 (CartMethods.useLoyaltyPoints Samples.cart2 (-20))))
    by (vm_compute; reflexivity).
  split; [exact H | exact (proj1 (useLoyaltyPoints_spec _ _ _ H))].
Defined.

Lemma updateItemQuantity_spec_witness :
  Cart.updateItemQuantity Samples.cart2 1 (1 # 2) = Err ValidationError
  /\ Cart.updateItemQuantity Samples.cart2 1 3
     = Ok (ok_or Samples.cart2 (Cart.updateItemQuantity Samples.cart2 1 3))
  /\ CartMethods.getItemCount (ok_or Samples.cart2 (Cart.updateItemQuantity Samples.cart2 1 3))
     == CartMethods.getItemCount Samples.cart2 - Cart.quantity Samples.line1 + 3.
Proof.
  assert (F : find (Cart.same_product 1) (Cart.items Samples.cart2) = Some Samples.line1)
    by reflexivity.
  assert (H : Cart.updateItemQuantity Samples.cart2 1 3
              = Ok (ok_or Samples.cart2 (Cart.updateItemQuantity Samples.cart2 1 3)))
    by (vm_compute; reflexivity).
  split; [apply (proj1 (updateItemQuantity_spec _ _ (1 # 2) _ F)); lra|].
  split; [exact H|].
  exact (proj2 (updateItemQuantity_spec _ _ 3 _ F) _ ltac:(lra) H).
Defined.

End CartExtrasWitnesses.

(** ** Loyalty accounts *)

Module LoyaltyExtras.
Import Loyalty LoyaltyMethods LoyaltyFacts.

Lemma loyalty_save_inv (a a' : account) (now : nat) :
  save a now = Ok a' -> valid a = true /\ a' = updateTier a now.
Proof. unfold save. destruct (valid a); intro H; inversion H; auto. Qed.

Lemma calculateTier_updateTier (a : account) (now : nat) :
  calculateTier (updateTier a now) = calculateTier a.
Proof.
  unfold calculateTier. rewrite (proj1 (updateTier_points a now)). reflexivity.
Qed.

Lemma tier_current_updateTier (a : account) (now : nat) :
  tier_current (updateTier a now) = calculateTier a.
Proof.
  unfold updateTier. destruct (tier_eqb _ _) eqn:E; [|reflexivity].
  apply tier_eqb_eq in E. symmetry; exact E.
Qed.

Lemma updateTier_consistent (a : account) (now : nat) :
  tier_current a = calculateTier a -> updateTier a now = a.
Proof.
  intro H. unfold updateTier. rewrite H.
  destruct (calculateTier a); reflexivity.
Qed.

(** The check of the [use-points] route agrees with [usePoints]:
    [canUsePoints] holds exactly when [usePoints] does not throw
    'Pontos insuficientes'. *)
Theorem canUsePoints_usePoints (a : account) (amt : Q) (desc : string)
        (orderId : option nat) (now : nat) :
  canUsePoints a amt = true <-> usePoints a amt desc orderId now <> Err InsufficientPoints.
Proof.
  unfold canUsePoints, usePoints.
  destruct (Qle_bool amt (current (points a))); simpl.
  - split; [|reflexivity]. intros _. unfold save. destruct (valid _); discriminate.
  - split; [discriminate | intro H; exfalso; apply H; reflexivity].
Qed.

(** On an account that passes validation, the discount offered on a
    non-negative order amount lies between 0 and the amount. *)
Theorem getAvailableDiscount_bounds (a : account) (orderAmount : Q) :
  valid a = true -> 0 <= orderAmount ->
  0 <= getAvailableDiscount a orderAmount <= orderAmount.
Proof.
  intros V H. unfold valid in V. rewrite !andb_true_iff, !Qle_bool_iff in V.
  destruct V as [[[[[[_ _] _] _] B1] B2] _].
  unfold getAvailableDiscount. split.
  - apply Qmult_le_0_compat; assumption.
  - assert (M : discountPercentage (benefits a) * orderAmount <= 1 * orderAmount)
      by (apply Qmult_le_compat_r; assumption).
    lra.
Qed.

(** [getProgressToNextTier] is a percentage in [0, 100]; the next tier is
    missing only at platinum, and otherwise needs strictly more points
    than the current tier, so the division is never by zero. *)
Theorem getProgressToNextTier_bounds (a : account) :
  0 <= getProgressToNextTier a <= 100
  /\ (getNextTier a = None <-> tier_current a = Platinum)
  /\ match getNextTier a with
     | Some t => getPointsRequiredForTier (tier_current a) < getPointsRequiredForTier t
     | None => getProgressToNextTier a = 100
     end.
Proof.
  unfold getProgressToNextTier.
  destruct (getNextTier a) as [t|] eqn:N.
  - split; [split; [apply Q.min_glb; [discriminate | apply Q.le_max_l] | apply Q.le_min_l]|].
    unfold getNextTier in N.
    destruct (tier_current a); simpl in N; inversion N; subst;
      (split; [split; discriminate | reflexivity]).
  - split; [split; discriminate|].
    unfold getNextTier in N.
    destruct (tier_current a); simpl in N; try discriminate.
    split; [split; reflexivity | reflexivity].
Qed.

(** After any successful save (so after [addPoints] and [usePoints]) the
    stored tier is the one the balance gives, a further save's hook
    changes nothing, and [hasSpecialBenefits] holds exactly when the
    balance is at least 500 points. *)
Theorem save_tier_consistent (a a' : account) (now now' : nat) :
  save a now = Ok a' ->
  tier_current a' = calculateTier a'
  /\ updateTier a' now' = a'
  /\ (hasSpecialBenefits a' = true <-> 500 <= current (points a')).
Proof.
  intro H. apply loyalty_save_inv in H as [_ ->].
  assert (T : tier_current (updateTier a now) = calculateTier (updateTier a now))
    by (rewrite tier_current_updateTier, calculateTier_updateTier; reflexivity).
  split; [exact T|]. split; [exact (updateTier_consistent _ now' T)|].
  unfold hasSpecialBenefits. rewrite T.
  pose proof (calculateTier_cases (updateTier a now)) as K; cbv zeta in K.
  destruct K as [[E H]|[[E [H _]]|[[E [_ H]]|[E H]]]]; rewrite E; simpl;
    (split; intro H'); try reflexivity; try (exfalso; lra); try lra; discriminate H'.
Qed.

Lemma progress_in_range (x l h : Q) :
  l <= x -> x <= h -> l < h -> 0 <= (x - l) / (h - l) * 100 <= 100.
Proof.
  intros H1 H2 H3. assert (D : 0 < h - l) by lra.
  assert (A : 0 <= (x - l) / (h - l)) by (apply Qle_shift_div_l; [exact D | lra]).
  assert (B : (x - l) / (h - l) <= 1) by (apply Qle_shift_div_r; [exact D | lra]).
  lra.
Qed.

Lemma clamp_id (p : Q) : 0 <= p <= 100 -> Qmin 100 (Qmax 0 p) == p.
Proof.
  intros [H1 H2]. rewrite (Q.max_r 0 p H1). apply Q.min_r. exact H2.
Qed.

(** On a consistent account (stored tier = tier of the balance, as after
    any save) the progress needs no clamping: below platinum it is the
    exact share of the way from the current tier's threshold to the next. *)
Theorem getProgressToNextTier_exact (a : account) :
  valid a = true -> tier_current a = calculateTier a ->
  match getNextTier a with
  | None => getProgressToNextTier a == 100
  | Some t =>
      getProgressToNextTier a
      == (current (points a) - getPointsRequiredForTier (tier_current a))
         / (getPointsRequiredForTier t - getPointsRequiredForTier (tier_current a)) * 100
  end.
Proof.
  intros V T. destruct (valid_points a V) as [C _].
  unfold getProgressToNextTier.
  destruct (getNextTier a) as [t|] eqn:N; [|reflexivity].
  unfold getNextTier in N.
  destruct (calculateTier_cases a) as [[E H]|[[E [H1 H2]]|[[E [H1 H2]]|[E H]]]];
    rewrite T, E in N |- *; simpl in N; inversion N; subst; simpl;
    apply clamp_id; apply progress_in_range; lra.
Qed.

(** [addPoints] checks neither the sign of the amount nor the
    description: the save rejects a call that would leave a negative
    balance or record a transaction without a description, and the stored
    account is unchanged. *)
Theorem addPoints_rejected (a : account) (amt : Q) (desc : string)
        (orderId : option nat) (expiresIn : option nat) (now : nat) :
  current (points a) + amt < 0 \/ desc = ""%string ->
  addPoints a amt desc orderId expiresIn now = Err ValidationError.
Proof.
  intro H. unfold addPoints, save, valid; simpl.
  destruct H as [H | ->].
  - assert (E : Qle_bool 0 (current (points a) + amt) = false).
    { destruct (Qle_bool 0 _) eqn:E; [|reflexivity]. apply Qle_bool_iff in E. lra. }
    rewrite E. reflexivity.
  - rewrite forallb_app. simpl. rewrite !andb_false_r. reflexivity.
Qed.

End LoyaltyExtras.

Module LoyaltyExtrasWitnesses.
Import Loyalty LoyaltyMethods LoyaltyExtras Samples.

Lemma getAvailableDiscount_bounds_witness :
  valid fresh_account = true /\ 0 <= 40
  /\ 0 <= getAvailableDiscount fresh_account 40 <= 40.
Proof.
  split; [reflexivity|]. split; [discriminate|].
  apply getAvailableDiscount_bounds; [reflexivity | discriminate].
Defined.

Lemma save_tier_consistent_witness :
  save stale600 0 = Ok (ok_or stale600 (save stale600 0))
  /\ hasSpecialBenefits (ok_or stale600 (save stale600 0)) = true.
Proof.
  assert (H : save stale600 0 = Ok (ok_or stale600 (save stale600 0)))
    by (vm_compute; reflexivity).
  split; [exact H|].
  apply (proj2 (proj2 (proj2 (save_tier_consistent _ _ 0 0 H)))).
  vm_compute. discriminate.
Defined.

Lemma getProgressToNextTier_exact_witness :
  valid silver350 = true /\ tier_current silver350 = calculateTier silver350
  /\ getProgressToNextTier silver350 == (350 - 200) / (500 - 200) * 100.
Proof.
  assert (V : valid silver350 = true) by reflexivity.
  assert (T : tier_current silver350 = calculateTier silver350) by reflexivity.
  split; [exact V|]. split; [exact T|].
  exact (getProgressToNextTier_exact silver350 V T).
Defined.

Lemma addPoints_rejected_witness :
  addPoints fresh_account (-5) "ajuste" None None 0 = Err ValidationError.
Proof.
  apply addPoints_rejected. left. simpl. lra.
Defined.

End LoyaltyExtrasWitnesses.

(** ** Orders *)

Module OrderExtras.
Import OrderDoc.

Lemma save_same_status (old d d' : doc) (now : nat) :
  status_current d = status_current old ->
  save old d now = inl d' -> d' = d /\ valid d = true.
Proof.
  intro E. unfold save. rewrite E, String.eqb_refl.
  destruct (valid d); intro H; inversion H; auto.
Qed.

Lemma save_not_index (old d : doc) (now : nat) : save old d now <> inr InvalidItemIndex.
Proof. unfold save. destruct (valid d); [destruct (String.eqb _ _)|]; discriminate. Qed.

Lemma save_not_type (old d : doc) (now : nat) : save old d now <> inr HistoryTypeError.
Proof. unfold save. destruct (valid d); [destruct (String.eqb _ _)|]; discriminate. Qed.

Lemma nth_error_splice {A} (l : list A) (n k : nat) :
  (n < List.length l)%nat ->
  nth_error (firstn n l ++ skipn (S n) l) k
  = if Nat.ltb k n then nth_error l k else nth_error l (S k).
Proof.
  intro H. assert (L : List.length (firstn n l) = n) by (rewrite length_firstn; lia).
  destruct (Nat.ltb k n) eqn:E.
  - apply Nat.ltb_lt in E. rewrite nth_error_app1 by lia.
    rewrite nth_error_firstn. apply Nat.ltb_lt in E. rewrite E. reflexivity.
  - apply Nat.ltb_ge in E. rewrite nth_error_app2 by lia.
    rewrite nth_error_skipn, L. f_equal. lia.
Qed.

Lemma set_last_split (f : history_entry -> history_entry) (l : list history_entry) :
  l <> [] -> exists pre e, l = pre ++ [e] /\ set_last f l = pre ++ [f e].
Proof.
  induction l as [|x l IH]; intro H; [congruence|].
  destruct l as [|y l].
  - exists [], x. split; reflexivity.
  - destruct (IH ltac:(discriminate)) as (pre & e & E1 & E2).
    exists (x :: pre), e. split.
    + rewrite E1. reflexivity.
    + change (set_last f (x :: y :: l)) with (x :: set_last f (y :: l)).
      rewrite E2. reflexivity.
Qed.

(** [removeItem] throws 'Índice de item inválido' exactly when the index
    is outside [0, items.length). *)
Theorem removeItem_invalid_index (d : doc) (i : Z) (now : nat) :
  removeItem d i now = inr InvalidItemIndex
  <-> (i < 0 \/ Z.of_nat (List.length (Order.items (body d))) <= i)%Z.
Proof.
  unfold removeItem.
  destruct ((0 <=? i)%Z && (i <? Z.of_nat (List.length (Order.items (body d))))%Z) eqn:E.
  - apply andb_true_iff in E as [E1 E2]. apply Z.leb_le in E1. apply Z.ltb_lt in E2.
    split; [intro H; exfalso; exact (save_not_index _ _ _ H) | lia].
  - split; [intros _ | reflexivity].
    apply andb_false_iff in E as [E|E]; [apply Z.leb_gt in E | apply Z.ltb_ge in E]; lia.
Qed.

(** A successful [removeItem i] deletes exactly line [i]: the lines
    before it keep their positions, the ones after it move up by one; the
    amounts are recomputed and the status history is untouched. *)
Theorem removeItem_ok (d d' : doc) (i : Z) (now : nat) :
  removeItem d i now = inl d' ->
  (0 <= i < Z.of_nat (List.length (Order.items (body d))))%Z
  /\ List.length (Order.items (body d')) = pred (List.length (Order.items (body d)))
  /\ (forall k, nth_error (Order.items (body d')) k
                = if Nat.ltb k (Z.to_nat i) then nth_error (Order.items (body d)) k
                  else nth_error (Order.items (body d)) (S k))
  /\ Order.total_ok (body d')
  /\ status_history d' = status_history d.
Proof.
  unfold removeItem.
  destruct ((0 <=? i)%Z && (i <? Z.of_nat (List.length (Order.items (body d))))%Z) eqn:E;
    [|discriminate].
  apply andb_true_iff in E as [E1 E2]. apply Z.leb_le in E1. apply Z.ltb_lt in E2.
  intro H. apply save_same_status in H as [-> _]; [|reflexivity].
  assert (N : (Z.to_nat i < List.length (Order.items (body d)))%nat) by lia.
  split; [lia|]. split; [|split; [|split]];
    unfold set_body, set_items, Order.calculateTotal; cbn [body status_history Order.items].
  - rewrite length_app, length_firstn, length_skipn. lia.
  - intro k. apply nth_error_splice. exact N.
  - exact (Order_calculateTotal_ok (set_items (body d)
             (firstn (Z.to_nat i) (Order.items (body d))
              ++ skipn (S (Z.to_nat i)) (Order.items (body d))))).
  - reflexivity.
Qed.

(** A successful [addItem] appends one line priced at
    [quantity * unitPrice] plus its customization costs, validated by the
    [min] rules, and the order amount is recomputed to include it. *)
Theorem addItem_ok (d d' : doc) (pid : nat) (q u : Q) (cust : list Cart.custom) (now : nat) :
  addItem d pid q u cust now = inl d' ->
  1 <= q /\ 0 <= u
  /\ Order.amount (Order.payment_ (body d'))
     == qsum (map Order.totalPrice (Order.items (body d))) + q * u + Cart.customizationCost cust
  /\ Order.total_ok (body d').
Proof.
  unfold addItem. intro H. apply save_same_status in H as [-> V]; [|reflexivity].
  unfold valid in V. simpl in V.
  rewrite !andb_true_iff in V. destruct V as [[[[V _] _] _] _].
  rewrite forallb_app in V. simpl in V. unfold item_valid at 2 in V; simpl in V. rewrite !andb_true_iff, !Qle_bool_iff in V.
  destruct V as [_ [[[Hq Hu] _] _]].
  split; [exact Hq|]. split; [exact Hu|]. split.
  - simpl. rewrite (fold_add_map Order.totalPrice), map_app, CartExtras.qsum_app.
    simpl. rewrite qsum_cons. change (qsum []) with 0. unfold qsum. ring.
  - apply Order_calculateTotal_ok.
Qed.

(** [updateStatus(newStatus, note, updatedBy)], as the order routes call
    it, writes [updatedBy] on the entry that was last before the call:
    the save then appends the entry of the new status (when it changed)
    without [updatedBy].  The new status must be in the enum. *)
Theorem updateStatus_updatedBy (d d' : doc) (s note : string) (u now : nat) :
  updateStatus d s note (Some u) now = inl d' ->
  status_current d' = s /\ in_enum s = true
  /\ exists pre e,
       status_history d = pre ++ [e]
       /\ status_history d'
          = pre ++ [mkEntry (h_status e) (h_timestamp e) (h_note e) (Some u)]
            ++ (if String.eqb s (status_current d) then []
                else [mkEntry s now (if String.eqb note ""%string then "Status atualizado"%string else note)
                              None]).
Proof.
  unfold updateStatus.
  destruct (status_history d) as [|x l] eqn:Hh; [discriminate|].
  destruct (set_last_split (fun e => mkEntry (h_status e) (h_timestamp e) (h_note e) (Some u))
                           (x :: l) ltac:(discriminate)) as (pre & e & E1 & E2).
  rewrite E2. unfold save. simpl.
  destruct (valid _) eqn:V; [|discriminate].
  unfold valid in V; simpl in V. rewrite !andb_true_iff in V. destruct V as [[_ Hs] _].
  destruct (String.eqb s (status_current d)); intro H; inversion H; subst; simpl;
    (split; [reflexivity|]); (split; [exact Hs|]); exists pre, e; split; try exact E1;
    rewrite ?app_nil_r, <- ?app_assoc; reflexivity.
Qed.

(** [updateStatus] with an [updatedBy] throws a [TypeError] exactly when
    the order has no status history yet. *)
Theorem updateStatus_empty_history (d : doc) (s note : string) (u now : nat) :
  updateStatus d s note (Some u) now = inr HistoryTypeError <-> status_history d = [].
Proof.
  unfold updateStatus. destruct (status_history d); split; intro H;
    try reflexivity; try discriminate.
  exfalso. exact (save_not_type _ _ _ H).
Qed.

(** [calculateLoyaltyPoints] on an order that passes validation stores
    and returns [floor(finalAmount)]: a whole number of points, never
    negative and at most the amount paid. *)
Theorem calculateLoyaltyPoints_spec (d : doc) :
  valid d = true ->
  let (e, d') := calculateLoyaltyPoints d in
  earned d' = e /\ (0 <= e)%Z
  /\ inject_Z e <= Order.finalAmount (Order.payment_ (body d)) < inject_Z e + 1.
Proof.
  intro V. unfold valid in V. rewrite !andb_true_iff, !Qle_bool_iff in V.
  destruct V as [[[[_ _] F] _] _].
  unfold calculateLoyaltyPoints. cbv zeta. cbn [earned]. split; [reflexivity|].
  assert (M : Qfloor (Order.finalAmount (Order.payment_ (body d)) * 1)
              = Qfloor (Order.finalAmount (Order.payment_ (body d))))
    by (apply Qfloor_comp; ring).
  rewrite M.
  assert (L := Qfloor_le (Order.finalAmount (Order.payment_ (body d)))).
  assert (U := Qlt_floor (Order.finalAmount (Order.payment_ (body d)))).
  rewrite inject_Z_plus in U. split; [|split; [exact L | exact U]].
  assert (P : inject_Z (-1) < inject_Z (Qfloor (Order.finalAmount (Order.payment_ (body d)))))
    by (change (inject_Z 1) with 1 in U; unfold inject_Z at 1; lra).
  rewrite <- Zlt_Qlt in P. lia.
Qed.

End OrderExtras.

Module OrderExtrasWitnesses.
Import OrderDoc OrderExtras Samples.

Lemma removeItem_ok_witness :
  removeItem orderdoc2 0 5 = inl (inl_or orderdoc2 (removeItem orderdoc2 0 5))
  /\ nth_error (Order.items (body (inl_or orderdoc2 (removeItem orderdoc2 0 5)))) 0
     = nth_error (Order.items (body orderdoc2)) 1.
Proof.
  assert (H : removeItem orderdoc2 0 5 = inl (inl_or orderdoc2 (removeItem orderdoc2 0 5)))
    by (vm_compute; reflexivity).
  split; [exact H|].
  exact (proj1 (proj2 (proj2 (removeItem_ok _ _ _ _ H))) 0%nat).
Defined.

Lemma addItem_ok_witness :
  addItem orderdoc2 3 2 (5 # 2) [Cart.mkCustom "molho" "picante" (Some 1)] 5
  = inl (inl_or orderdoc2 (addItem orderdoc2 3 2 (5 # 2) [Cart.mkCustom "molho" "picante" (Some 1)] 5))
  /\ Order.amount (Order.payment_ (body (inl_or orderdoc2
        (addItem orderdoc2 3 2 (5 # 2) [Cart.mkCustom "molho" "picante" (Some 1)] 5))))
     == qsum (map Order.totalPrice (Order.items (body orderdoc2))) + 2 * (5 # 2)
        + Cart.customizationCost [Cart.mkCustom "molho" "picante" (Some 1)].
Proof.
  assert (H : addItem orderdoc2 3 2 (5 # 2) [Cart.mkCustom "molho" "picante" (Some 1)] 5
              = inl (inl_or orderdoc2 (addItem orderdoc2 3 2 (5 # 2)
                                         [Cart.mkCustom "molho" "picante" (Some 1)] 5)))
    by (vm_compute; reflexivity).
  split; [exact H|].
  exact (proj1 (proj2 (proj2 (addItem_ok _ _ _ _ _ _ _ H)))).
Defined.

Lemma updateStatus_updatedBy_witness :
  updateStatus orderdoc2 "confirmed" "" (Some 9%nat) 5
  = inl (inl_or orderdoc2 (updateStatus orderdoc2 "confirmed" "" (Some 9%nat) 5))
  /\ status_current (inl_or orderdoc2 (updateStatus orderdoc2 "confirmed" "" (Some 9%nat) 5))
     = "confirmed"%string.
Proof.
  assert (H : updateStatus orderdoc2 "confirmed" "" (Some 9%nat) 5
              = inl (inl_or orderdoc2 (updateStatus orderdoc2 "confirmed" "" (Some 9%nat) 5)))
    by (vm_compute; reflexivity).
  split; [exact H | exact (proj1 (updateStatus_updatedBy _ _ _ _ _ _ H))].
Defined.

Lemma calculateLoyaltyPoints_spec_witness :
  valid orderdoc2 = true
  /\ (0 <= fst (calculateLoyaltyPoints orderdoc2))%Z.
Proof.
  assert (V : valid orderdoc2 = true) by reflexivity.
  split; [exact V|].
  pose proof (calculateLoyaltyPoints_spec orderdoc2 V) as P.
  destruct (calculateLoyaltyPoints orderdoc2) as [e d'].
  exact (proj1 (proj2 P)).
Defined.

End OrderExtrasWitnesses.

(** ** Contact requests *)

Module ContactExtras.
Import Contact.

Lemma over_limit (h l l' : Q) :
  l' <= l -> negb (Qle_bool h l) = true -> negb (Qle_bool h l') = true.
Proof.
  intros L H. apply negb_true_iff in H. apply negb_true_iff.
  apply LoyaltyFacts.Qle_bool_false in H.
  destruct (Qle_bool h l') eqn:E; [|reflexivity]. apply Qle_bool_iff in E. lra.
Qed.

Lemma hours_mono (c t1 t2 : Q) :
  t1 <= t2 -> (t1 - c) / ms_per_hour <= (t2 - c) / ms_per_hour.
Proof.
  intro H. unfold Qdiv. apply Qmult_le_compat_r; [lra|].
  apply Qinv_le_0_compat. unfold ms_per_hour. discriminate.
Qed.

(** [isOverdue] is false for resolved and closed contacts, and for an
    open contact, once overdue it stays overdue as time passes. *)
Theorem isOverdue_monotone (c : contact) (t1 t2 : Q) :
  (String.eqb (status c) "new" = false -> String.eqb (status c) "in_progress" = false ->
   isOverdue c t1 = false)
  /\ (isOverdue c t1 = true -> t1 <= t2 -> isOverdue c t2 = true).
Proof.
  unfold isOverdue. split.
  - intros -> ->. reflexivity.
  - destruct (negb _ && negb _); [discriminate|].
    destruct (timeLimits (priority c)) as [l|]; [|discriminate].
    intros H T. destruct (Qle_bool ((t2 - createdAt c) / ms_per_hour) l) eqn:E; [|reflexivity].
    apply Qle_bool_iff in E. apply negb_true_iff, LoyaltyFacts.Qle_bool_false in H.
    pose proof (hours_mono (createdAt c) t1 t2 T). lra.
Qed.

(** The higher the priority in [low < normal < high < urgent], the sooner
    a contact becomes overdue: a contact overdue at some priority is
    overdue at every higher one. *)
Theorem isOverdue_priority (c : contact) (t : Q) (i j : nat) (p p' : string) :
  (i <= j)%nat ->
  nth_error priority_enum i = Some p -> nth_error priority_enum j = Some p' ->
  isOverdue (mkContact (subject c) p (status c) (createdAt c) (response c)) t = true ->
  isOverdue (mkContact (subject c) p' (status c) (createdAt c) (response c)) t = true.
Proof.
  intros Hij Hi Hj. unfold isOverdue; cbn [Contact.status Contact.priority Contact.createdAt].
  destruct (negb _ && negb _); [discriminate|].
  destruct i as [|[|[|[|i]]]]; [| | | | destruct i; discriminate];
    simpl in Hi; inversion Hi; subst;
  destruct j as [|[|[|[|j]]]]; try (destruct j; discriminate);
    simpl in Hj; inversion Hj; subst;
  try lia; simpl; try tauto; apply over_limit; discriminate.
Qed.

Lemma round_nonneg (x : Q) : 0 <= x -> 0 <= round x.
Proof.
  intro H. unfold round. change 0 with (inject_Z 0). rewrite <- Zle_Qle.
  change 0%Z with (Qfloor 0). apply Qfloor_resp_le. lra.
Qed.

(** A successful [markAsResponded] marks the contact resolved, so it is
    never overdue again, and the save hook records the response time in
    hours rounded to two decimals, which is not negative when the reply
    comes after the creation. *)
Theorem markAsResponded_spec (c c' : contact) (msg : string) (by_ : nat) (now : Q) :
  markAsResponded c msg by_ now = Ok c' ->
  status c' = "resolved"%string
  /\ (forall t, isOverdue c' t = false)
  /\ responseTime (response c')
     = Some (round ((now - createdAt c) / ms_per_hour * 100) / 100)
  /\ (createdAt c <= now -> exists rt, responseTime (response c') = Some rt /\ 0 <= rt).
Proof.
  unfold markAsResponded, save. destruct (valid _); intro H; inversion H; subst; clear H.
  simpl. split; [reflexivity|]. split; [reflexivity|]. split; [reflexivity|].
  intro T. eexists; split; [reflexivity|].
  apply Qle_shift_div_l; [reflexivity|]. rewrite Qmult_0_l.
  apply round_nonneg. apply Qmult_le_0_compat; [|discriminate].
  apply Qle_shift_div_l; [reflexivity | lra].
Qed.

End ContactExtras.

(** ** Product ratings *)

Module ProductRatingsExtras.
Import ProductRatings.

Lemma ratings_save_inv (rs rs' : ratings) :
  save rs = Ok rs' -> valid rs = true /\ rs' = rating_hook rs.
Proof. unfold save. destruct (valid rs); intro H; inversion H; auto. Qed.

Lemma rating_hook_reviews (rs : ratings) : reviews (rating_hook rs) = reviews rs.
Proof. unfold rating_hook. destruct (Nat.ltb _ _); reflexivity. Qed.

Lemma update_first_users (p : review -> bool) (f : review -> review) (l : list review) :
  (forall x, user (f x) = user x) -> map user (update_first p f l) = map user l.
Proof.
  intro Hf. induction l as [|y l IH]; simpl; [reflexivity|].
  destruct (p y); simpl; rewrite ?Hf, ?IH; reflexivity.
Qed.

Lemma review_update_first_in (p : review -> bool) (f : review -> review) (l : list review) (x : review) :
  find p l = Some x -> In (f x) (update_first p f l).
Proof.
  induction l as [|y l IH]; simpl; [discriminate|].
  destruct (p y); intro F.
  - inversion F; subst. left; reflexivity.
  - right. exact (IH F).
Qed.

Lemma find_some_user (u : nat) (l : list review) (x : review) :
  find (fun y => Nat.eqb (user y) u) l = Some x -> user x = u.
Proof.
  intro F. apply find_some in F as [_ E]. apply Nat.eqb_eq. exact E.
Qed.

Lemma find_none_users (u : nat) (l : list review) :
  find (fun y => Nat.eqb (user y) u) l = None -> ~ In u (map user l).
Proof.
  intros F Hin. apply in_map_iff in Hin as (y & E & Hy).
  pose proof (find_none _ _ F y Hy) as N. simpl in N.
  rewrite E, Nat.eqb_refl in N. discriminate.
Qed.

(** The review the call writes is in the saved list. *)
Lemma addReview_written (rs rs' : ratings) (u : nat) (r : Q) (cm : string) (now : nat) :
  addReview rs u r cm now = Ok rs' ->
  exists x, In x (reviews rs') /\ user x = u /\ rating x = r.
Proof.
  unfold addReview.
  destruct (find (fun x => Nat.eqb (user x) u) (reviews rs)) as [y|] eqn:F;
    intro H; apply ratings_save_inv in H as [_ ->]; rewrite rating_hook_reviews; simpl.
  - eexists; split; [exact (review_update_first_in _ _ _ _ F)|].
    simpl. split; [exact (find_some_user _ _ _ F) | reflexivity].
  - eexists; split; [apply in_or_app; right; left; reflexivity | split; reflexivity].
Qed.

Lemma qsum_ratings_bounds (l : list review) :
  forallb review_valid l = true ->
  inject_Z (Z.of_nat (List.length l)) <= qsum (map rating l)
  /\ qsum (map rating l) <= 5 * inject_Z (Z.of_nat (List.length l)).
Proof.
  induction l as [|x l IH]; cbn [map forallb List.length]; [intros _; split; discriminate|].
  intro V. apply andb_true_iff in V as [Vx Vl].
  unfold review_valid in Vx. rewrite !andb_true_iff, !Qle_bool_iff in Vx.
  destruct Vx as [[R1 R2] _]. destruct (IH Vl) as [L U].
  rewrite qsum_cons, Nat2Z.inj_succ, <- Z.add_1_r, inject_Z_plus.
  change (inject_Z 1) with 1. lra.
Qed.

(** [addReview] keeps at most one review per user: a user's second
    review replaces the first. *)
Theorem addReview_unique_users (rs rs' : ratings) (u : nat) (r : Q) (cm : string) (now : nat) :
  NoDup (map user (reviews rs)) ->
  addReview rs u r cm now = Ok rs' ->
  NoDup (map user (reviews rs')).
Proof.
  intro N. unfold addReview.
  destruct (find (fun x => Nat.eqb (user x) u) (reviews rs)) eqn:F;
    intro H; apply ratings_save_inv in H as [_ ->]; rewrite rating_hook_reviews; simpl.
  - rewrite update_first_users by reflexivity. exact N.
  - rewrite map_app. simpl. apply NoDup_app; [exact N | constructor; [tauto | constructor] |].
    intros a Ha [<-|[]]. exact (find_none_users _ _ F Ha).
Qed.

Lemma save_average (rs rs' : ratings) :
  save rs = Ok rs' -> reviews rs <> [] ->
  count rs' = List.length (reviews rs')
  /\ average rs' == qsum (map rating (reviews rs')) / inject_Z (Z.of_nat (List.length (reviews rs')))
  /\ 1 <= average rs' <= 5.
Proof.
  intros H NE. apply ratings_save_inv in H as [V ->]. rewrite rating_hook_reviews.
  unfold valid in V; rewrite !andb_true_iff in V; destruct V as [_ V].
  unfold rating_hook. revert V NE. destruct (reviews rs) as [|y l]; intros V NE; [congruence|].
  assert (Lt : Nat.ltb 0 (List.length (y :: l)) = true) by reflexivity.
  rewrite Lt. cbn [average count reviews].
  destruct (qsum_ratings_bounds _ V) as [L U].
  rewrite (fold_add_map rating), Qplus_0_l.
  assert (P : 0 < inject_Z (Z.of_nat (List.length (y :: l))))
    by (change 0 with (inject_Z 0); rewrite <- Zlt_Qlt; cbn [List.length]; lia).
  split; [reflexivity|]. split; [reflexivity|].
  split; [apply Qle_shift_div_l; [exact P | lra] | apply Qle_shift_div_r; [exact P | lra]].
Qed.

Lemma addReview_save (rs : ratings) (u : nat) (r : Q) (cm : string) (now : nat) :
  exists rs0, addReview rs u r cm now = save rs0.
Proof.
  unfold addReview. destruct (find _ _); eexists; reflexivity.
Qed.

(** After a successful [addReview] the hook has set [count] to the number
    of reviews and [average] to their mean, which lies in [1, 5] since
    every stored rating passed the [min]/[max] validators. *)
Theorem addReview_average (rs rs' : ratings) (u : nat) (r : Q) (cm : string) (now : nat) :
  addReview rs u r cm now = Ok rs' ->
  count rs' = List.length (reviews rs')
  /\ average rs' == qsum (map rating (reviews rs')) / inject_Z (Z.of_nat (List.length (reviews rs')))
  /\ 1 <= average rs' <= 5.
Proof.
  intro H. destruct (addReview_written _ _ _ _ _ _ H) as (x & Hx & _).
  destruct (addReview_save rs u r cm now) as [rs0 E]. rewrite E in H.
  apply (save_average rs0 rs' H).
  pose proof H as H'. apply ratings_save_inv in H' as [_ ->].
  rewrite rating_hook_reviews in Hx. intro N. rewrite N in Hx. destruct Hx.
Qed.

(** A rating outside [1, 5] is rejected by the validators, whether it
    is a user's first review or replaces an earlier one. *)
Theorem addReview_rating_range (rs : ratings) (u : nat) (r : Q) (cm : string) (now : nat) :
  (r < 1 \/ 5 < r) -> addReview rs u r cm now = Err ValidationError.
Proof.
  intro R.
  destruct (addReview rs u r cm now) as [rs'|e] eqn:H.
  - exfalso. destruct (addReview_written _ _ _ _ _ _ H) as (x & Hx & _ & Rx).
    revert H. unfold addReview.
    destruct (find _ _); intro H; apply ratings_save_inv in H as [V ->];
      rewrite rating_hook_reviews in Hx;
      unfold valid in V; rewrite !andb_true_iff in V; destruct V as [_ V];
      rewrite forallb_forall in V; specialize (V x Hx);
      unfold review_valid in V; rewrite !andb_true_iff, !Qle_bool_iff, Rx in V; lra.
  - revert H. unfold addReview. destruct (find _ _); unfold save;
      destruct (valid _); intro H; inversion H; reflexivity.
Qed.

End ProductRatingsExtras.

Module ContactRatingsWitnesses.
Import Samples.

Lemma isOverdue_priority_witness :
  (0 <= 3)%nat
  /\ nth_error Contact.priority_enum 0 = Some "low"%string
  /\ nth_error Contact.priority_enum 3 = Some "urgent"%string
  /\ Contact.isOverdue contact1 (73 * 3600000) = true
  /\ Contact.isOverdue (Contact.mkContact (Contact.subject contact1) "urgent"
                          (Contact.status contact1) (Contact.createdAt contact1)
                          (Contact.response contact1)) (73 * 3600000) = true.
Proof.
  assert (O : Contact.isOverdue contact1 (73 * 3600000) = true) by (vm_compute; reflexivity).
  split; [lia|]. split; [reflexivity|]. split; [reflexivity|]. split; [exact O|].
  exact (ContactExtras.isOverdue_priority contact1 _ 0 3 _ _ ltac:(lia) eq_refl eq_refl O).
Defined.

Lemma markAsResponded_spec_witness :
  Contact.markAsResponded contact1 "Obrigado" 1 5400000
  = Ok (ok_or contact1 (Contact.markAsResponded contact1 "Obrigado" 1 5400000))
  /\ Contact.responseTime (Contact.response
       (ok_or contact1 (Contact.markAsResponded contact1 "Obrigado" 1 5400000)))
     = Some (Contact.round ((5400000 - 0) / Contact.ms_per_hour * 100) / 100).
Proof.
  assert (H : Contact.markAsResponded contact1 "Obrigado" 1 5400000
              = Ok (ok_or contact1 (Contact.markAsResponded contact1 "Obrigado" 1 5400000)))
    by (vm_compute; reflexivity).
  split; [exact H | exact (proj1 (proj2 (proj2 (ContactExtras.markAsResponded_spec _ _ _ _ _ H))))].
Defined.

Lemma addReview_unique_users_witness :
  NoDup (map ProductRatings.user (ProductRatings.reviews ratings1))
  /\ ProductRatings.addReview ratings1 3 5 "otimo" 1
     = Ok (ok_or ratings1 (ProductRatings.addReview ratings1 3 5 "otimo" 1))
  /\ NoDup (map ProductRatings.user (ProductRatings.reviews
              (ok_or ratings1 (ProductRatings.addReview ratings1 3 5 "otimo" 1)))).
Proof.
  assert (N : NoDup (map ProductRatings.user (ProductRatings.reviews ratings1)))
    by (simpl; repeat constructor; simpl; tauto).
  assert (H : ProductRatings.addReview ratings1 3 5 "otimo" 1
              = Ok (ok_or ratings1 (ProductRatings.addReview ratings1 3 5 "otimo" 1)))
    by (vm_compute; reflexivity).
  split; [exact N|]. split; [exact H|].
  exact (ProductRatingsExtras.addReview_unique_users _ _ _ _ _ _ N H).
Defined.

Lemma addReview_average_witness :
  ProductRatings.addReview ratings1 4 2 "" 1
  = Ok (ok_or ratings1 (ProductRatings.addReview ratings1 4 2 "" 1))
  /\ 1 <= ProductRatings.average (ok_or ratings1 (ProductRatings.addReview ratings1 4 2 "" 1)) <= 5.
Proof.
  assert (H : ProductRatings.addReview ratings1 4 2 "" 1
              = Ok (ok_or ratings1 (ProductRatings.addReview ratings1 4 2 "" 1)))
    by (vm_compute; reflexivity).
  split; [exact H | exact (proj2 (proj2 (ProductRatingsExtras.addReview_average _ _ _ _ _ _ H)))].
Defined.

Lemma addReview_rating_range_witness :
  ProductRatings.addReview ratings1 4 6 "" 1 = Err ValidationError.
Proof.
  apply ProductRatingsExtras.addReview_rating_range. right. lra.
Defined.

End ContactRatingsWitnesses.

(** ** Deliveries *)

Module DeliveryExtras.
Import Delivery DeliveryMethods.

(** [updateStatus] on a delivery rejects a status outside the enum
    (such as 'completed'); a saved call stores the status and the note,
    and appends one history entry, with the note or 'Status atualizado',
    exactly when the status changed. *)
Theorem updateStatus_spec (d : delivery) (s note : string) (now : nat) :
  (in_enum s = false -> updateStatus d s note now = Err ValidationError)
  /\ (forall d', updateStatus d s note now = Ok d' ->
        status_current d' = s /\ deliveryNotes d' = note
        /\ status_history d'
           = (status_history d
              ++ (if String.eqb s (status_current d) then []
                  else [mkStatusEntry s now (if String.eqb note ""%string
                                             then "Status atualizado"%string else note)]))%list).
Proof.
  unfold updateStatus, save, valid; cbn [status_current status_history deliveryNotes].
  split.
  - intro E. rewrite E. reflexivity.
  - intro d'. destruct (in_enum s && _); [|discriminate].
    destruct (String.eqb s (status_current d)); intro H; inversion H; subst; simpl;
      rewrite ?app_nil_r; auto.
Qed.

End DeliveryExtras.

Module DeliveryContactWitnesses.
Import Samples.

Lemma updateStatus_spec_witness :
  DeliveryMethods.updateStatus delivery1 "completed" "" 0 = Err ValidationError.
Proof.
  apply (proj1 (DeliveryExtras.updateStatus_spec delivery1 "completed" "" 0)).
  reflexivity.
Defined.

Lemma isOverdue_monotone_witness :
  Contact.isOverdue contact1 (73 * 3600000) = true
  /\ Contact.isOverdue contact1 (100 * 3600000) = true.
Proof.
  assert (O : Contact.isOverdue contact1 (73 * 3600000) = true) by (vm_compute; reflexivity).
  split; [exact O|].
  exact (proj2 (ContactExtras.isOverdue_monotone contact1 (73 * 3600000) (100 * 3600000)) O ltac:(lra)).
Defined.

End DeliveryContactWitnesses.
